(** * Vault review: the snapshot ledger of the plugin, and its properties

    A shallow embedding of the plugin class [VaultReviewPlugin], of its
    [StatusBar] and of the buttons of [VaultReviewSettingTab], followed by the
    properties of the review ledger.

    Conventions of the embedding.
    - JavaScript strings are [string]; [===] on strings is equality, and a
      string is falsy exactly when it is empty.
    - A [Date] is its time value (milliseconds), an integer.
    - The plugin object is mutated in place by every handler: its fields, the
      status bar, the notices shown, the calls to [saveData], the files opened
      and the buttons of the settings panel form one record [World], threaded
      through a state monad [M].
    - What the handlers read from Obsidian (active file, vault contents, clock,
      random generator, stored data, what the user does in the confirmation
      dialog) is a read-only record [Host].
    - [Math.random() * files.length] is a product of binary64 numbers, rounded
      as such before [Math.floor]; the other numbers are counts, which are
      integers.
    - [Array.prototype.find] returns a reference to the first matching element
      and the handlers assign through it: the reference is the index of that
      element in [files], and the assignment an update at that index. *)

From stdpp Require Import base numbers option list strings.

Set Default Proof Using "Type".
Local Open Scope string_scope.
Local Open Scope list_scope.

(** ** Data model *)

(** [type SnapshotFileStatus = Exclude<FileStatus, "new">] *)
Inductive SnapshotFileStatus : Set :=
  | to_review
  | reviewed
  | deleted.

(** [type FileStatus = "new" | "to_review" | "reviewed" | "deleted"] *)
Inductive FileStatus : Set :=
  | new
  | stored (s : SnapshotFileStatus).

#[global] Instance SnapshotFileStatus_eq_dec : EqDecision SnapshotFileStatus.
Proof. solve_decision. Defined.

#[global] Instance FileStatus_eq_dec : EqDecision FileStatus.
Proof. solve_decision. Defined.

(** [type File = { path: string; status: SnapshotFileStatus }] *)
Record File : Set := mkFile {
  path : string;
  status : SnapshotFileStatus;
}.

#[global] Instance File_eq_dec : EqDecision File.
Proof. solve_decision. Defined.

Definition Date : Set := Z.

(** [type Snapshot = { files: File[]; createdAt: Date }] *)
Record Snapshot : Set := mkSnapshot {
  files : list File;
  createdAt : Date;
}.

(** [type Settings = { showStatusBar: boolean }] *)
Record Settings : Set := mkSettings {
  showStatusBar : bool;
}.

(** [type VaultReviewSettings = { snapshot?: Snapshot; settings: Settings }] *)
Record VaultReviewSettings : Set := mkVaultReviewSettings {
  snapshot : option Snapshot;
  settings : Settings;
}.

Definition DEFAULT_SETTINGS : VaultReviewSettings :=
  {| snapshot := None; settings := {| showStatusBar := true |} |}.

(** ** Obsidian's objects *)

(** The two fields of Obsidian's [TFile] that the plugin reads. *)
Record TFile : Set := mkTFile {
  tfile_path : string;
  extension : string;
}.

(** [TAbstractFile]: a file or a folder ([file instanceof TFolder]). *)
Inductive TAbstractFile : Set :=
  | AFile (f : TFile)
  | AFolder (folder_path : string).

Definition abstract_path (a : TAbstractFile) : string :=
  match a with
  | AFile f => tfile_path f
  | AFolder p => p
  end.

(** The union [File | TFile] of [toFile] and of [completeReview]'s
    [file ?? this.getActiveFile()]. *)
Inductive FileLike : Set :=
  | OfFile (f : File)
  | OfTFile (f : TFile).

Definition like_path (f : FileLike) : string :=
  match f with
  | OfFile f => path f
  | OfTFile f => tfile_path f
  end.

Definition toFile (file : FileLike) (st : SnapshotFileStatus) : File :=
  {| path := like_path file; status := st |}.

(** What [loadData] returns: the stored object, each key optional. *)
Record Data : Set := mkData {
  data_snapshot : option Snapshot;
  data_showStatusBar : option bool;
}.

(** [Math.random()]: a binary64 number of [0, 1). Such a number is
    [rnd_mant / 2 ^ rnd_exp] for a significand [rnd_mant] below [2 ^ 53] and
    an exponent [rnd_exp] of at most 1074, and every such quotient below 1 is
    a binary64 number. *)
Definition in_unit_interval (mant exp : Z) : bool :=
  (0 <=? mant)%Z && (mant <? 2 ^ 53)%Z
  && (0 <=? exp)%Z && (exp <=? 1074)%Z && (mant <? 2 ^ exp)%Z.

Record Random : Set := mkRandom {
  rnd_mant : Z;
  rnd_exp : Z;
  rnd_ok : in_unit_interval rnd_mant rnd_exp = true;
}.

(** The rounding of binary64 arithmetic, to nearest with ties to even, of a
    natural number [x]: the pair [(q, s)], which stands for [q * 2 ^ s], of
    the significand [q], of at most 53 bits (or [2 ^ 53], when rounded up to
    it), and of the number [s] of low bits of [x] dropped. A number of at
    most 53 bits is a significand as it is. *)
Definition round_nearest_even (x : Z) : Z * Z :=
  let s := (Z.log2 x + 1 - 53)%Z in
  if (s <=? 0)%Z then (x, 0%Z)
  else
    let q := Z.shiftr x s in
    let rest := Z.land x (Z.ones s) in
    let half := Z.shiftl 1 (s - 1) in
    if (half <? rest)%Z || ((rest =? half)%Z && Z.odd q) then ((q + 1)%Z, s)
    else (q, s).

(** [Math.floor(r * n)] for the binary64 number [r] of [0, 1) and an array
    length [n], which is a binary64 number as it is: the exact product
    [rnd_mant r * n / 2 ^ rnd_exp r] is rounded once, by the multiplication,
    and [Math.floor] is exact. *)
Definition Math_floor_mul (r : Random) (n : nat) : nat :=
  let '(q, s) := round_nearest_even (rnd_mant r * Z.of_nat n) in
  Z.to_nat (Z.shiftl q (s - rnd_exp r)).

(** What the user does in [ConfirmSnapshotDeleteModal]. The modal stays open,
    with its two buttons, until [onDelete] has ended, and [onDelete] ends with
    [await this.saveSettings()], so that more can happen in the modal before
    the first [onDelete] calls [resolve] and closes it. *)
Inductive ModalAnswer : Set :=
  (** Cancel, Escape or a click outside of the modal, Delete not clicked *)
  | modal_cancel
  (** Delete, clicked [again] more times while the first click is saving;
      [closed]: the modal is then closed (by Cancel, Escape or a click
      outside) before that first save has ended *)
  | modal_delete (again : nat) (closed : bool).

Record Host : Set := mkHost {
  workspace_getActiveFile : option TFile;
  vault_getMarkdownFiles : list TFile;
  vault_getFileByPath : string -> option TFile;
  new_Date : Date;
  Math_random : Random;
  loadData : option Data;
  confirm_delete : ModalAnswer;
}.

(** ** The mutable state *)

(** The status bar element: its [hidden] class, its text, and [isReviewed]. *)
Record StatusBar : Set := mkStatusBar {
  sb_hidden : bool;
  sb_text : string;
  isReviewed : bool;
}.

(** The buttons of the snapshot setting of the settings tab. *)
Inductive Button : Set :=
  | DeleteSnapshotButton
  | AddAllNewFilesButton
  | CreateSnapshotButton.

#[global] Instance Button_eq_dec : EqDecision Button.
Proof. solve_decision. Defined.

Record World : Set := mkWorld {
  plugin_settings : VaultReviewSettings;   (* this.settings *)
  statusBar : StatusBar;                   (* this.statusBar *)
  notices : list string;                   (* new Notice(..), oldest first *)
  saved : list VaultReviewSettings;        (* this.saveData(..), oldest first *)
  opened : list TFile;                     (* leaf.openFile(..), oldest first *)
  panel : list Button;                     (* buttons of the settings tab *)
}.

(** ** The state monad of the handlers *)

Definition M (A : Type) : Type := World -> A * World.

Definition ret {A} (a : A) : M A := fun w => (a, w).

Definition bind {A B} (m : M A) (k : A -> M B) : M B :=
  fun w => let (a, w') := m w in k a w'.

Declare Scope m_scope.
Delimit Scope m_scope with M.
Notation "x <- c ;; k" := (bind c (fun x => k))
  (at level 100, c at next level, right associativity) : m_scope.
Notation "c ;; k" := (bind c (fun _ => k))
  (at level 100, right associativity) : m_scope.

Definition gets {A} (f : World -> A) : M A := fun w => (f w, w).
Definition modify (f : World -> World) : M unit := fun w => (tt, f w).
Definition when (b : bool) (m : M unit) : M unit := if b then m else ret tt.

(** [m], [n] times in a row. *)
Fixpoint times (n : nat) (m : M unit) : M unit :=
  match n with
  | 0 => ret tt
  | S n => bind m (fun _ => times n m)
  end.

(** The world a handler leaves, and the value it returns. *)
Definition exec {A} (m : M A) (w : World) : World := snd (m w).
Definition value_of {A} (m : M A) (w : World) : A := fst (m w).

(** Field updates. *)
Definition set_plugin_settings (vs : VaultReviewSettings) (w : World) : World :=
  {| plugin_settings := vs; statusBar := statusBar w; notices := notices w;
     saved := saved w; opened := opened w; panel := panel w |}.

Definition set_statusBar (sb : StatusBar) (w : World) : World :=
  {| plugin_settings := plugin_settings w; statusBar := sb; notices := notices w;
     saved := saved w; opened := opened w; panel := panel w |}.

Definition set_panel (bs : list Button) (w : World) : World :=
  {| plugin_settings := plugin_settings w; statusBar := statusBar w;
     notices := notices w; saved := saved w; opened := opened w; panel := bs |}.

Definition set_snapshot (s : option Snapshot) (vs : VaultReviewSettings)
  : VaultReviewSettings :=
  {| snapshot := s; settings := settings vs |}.

Definition set_files (fs : list File) (s : Snapshot) : Snapshot :=
  {| files := fs; createdAt := createdAt s |}.

Definition set_path (p : string) (f : File) : File :=
  {| path := p; status := status f |}.

Definition set_status (st : SnapshotFileStatus) (f : File) : File :=
  {| path := path f; status := st |}.

(** [this.settings.snapshot?.files = g(this.settings.snapshot.files)]: nothing
    happens without a snapshot. *)
Definition update_files (g : list File -> list File) (vs : VaultReviewSettings)
  : VaultReviewSettings :=
  match snapshot vs with
  | None => vs
  | Some s => set_snapshot (Some (set_files (g (files s)) s)) vs
  end.

(** ** Effects of the host *)

(** [new Notice(msg)] *)
Definition Notice (msg : string) : M unit :=
  modify (fun w =>
    {| plugin_settings := plugin_settings w; statusBar := statusBar w;
       notices := notices w ++ [msg]; saved := saved w; opened := opened w;
       panel := panel w |}).

(** [leaf.openFile(targetFile)] *)
Definition openFile (t : TFile) : M unit :=
  modify (fun w =>
    {| plugin_settings := plugin_settings w; statusBar := statusBar w;
       notices := notices w; saved := saved w; opened := opened w ++ [t];
       panel := panel w |}).

(** [saveSettings = async () => { await this.saveData(this.settings) }] *)
Definition saveSettings : M unit :=
  modify (fun w =>
    {| plugin_settings := plugin_settings w; statusBar := statusBar w;
       notices := notices w; saved := saved w ++ [plugin_settings w];
       opened := opened w; panel := panel w |}).

(** An assignment to (a part of) [this.settings]. *)
Definition assign_settings (g : VaultReviewSettings -> VaultReviewSettings)
  : M unit :=
  modify (fun w => set_plugin_settings (g (plugin_settings w)) w).

(** ** The plugin *)

Section Plugin.

Variable h : Host.

Local Open Scope m_scope.

(** [loadSettings]: the stored object spread over [DEFAULT_SETTINGS]; the
    parsing of a [createdAt] stored as a string is the identity here. *)
Definition loadSettings : M unit :=
  let data := loadData h in
  assign_settings (fun _ =>
    {| snapshot :=
         match data ≫= data_snapshot with
         | Some s => Some s
         | None => snapshot DEFAULT_SETTINGS
         end;
       settings :=
         {| showStatusBar :=
              default (showStatusBar (settings DEFAULT_SETTINGS))
                      (data ≫= data_showStatusBar) |} |}).

Definition getActiveFile : option TFile :=
  match workspace_getActiveFile h with
  | Some activeFile =>
      if bool_decide (extension activeFile ≠ "md") then None else Some activeFile
  | None => None
  end.

(** [getSnapshotFile(path?)], on the settings [vs] of the plugin: the index of
    the element that [find] returns, with the element. [!path] holds of no
    path and of the empty path. *)
Definition getSnapshotFile (vs : VaultReviewSettings) (path_ : option string)
  : option (nat * File) :=
  let path_ :=
    match path_ with
    | Some p => Some p
    | None => tfile_path <$> getActiveFile
    end in
  match path_ with
  | None => None
  | Some p =>
      if bool_decide (p = "") then None
      else
        match snapshot vs with
        | Some s => list_find (fun f => path f = p) (files s)
        | None => None
        end
  end.

(** [this.getSnapshotFile(path)?.status ?? "new"], the value that
    [getActiveFileStatus] returns for the path of the active file. *)
Definition file_status (vs : VaultReviewSettings) (p : string) : FileStatus :=
  match getSnapshotFile vs (Some p) with
  | Some (_, f) => stored (status f)
  | None => new
  end.

Definition getActiveFileStatus (vs : VaultReviewSettings) : option FileStatus :=
  match getActiveFile with
  | None => None
  | Some activeFile => Some (file_status vs (tfile_path activeFile))
  end.

Definition getToReviewFiles (vs : VaultReviewSettings) : list File :=
  match snapshot vs with
  | Some s => filter (fun file => status file = to_review) (files s)
  | None => []
  end.

(** [StatusBar.update] *)
Definition StatusBar_setIsVisible (isVisible : bool) (sb : StatusBar) : StatusBar :=
  {| sb_hidden := negb isVisible; sb_text := sb_text sb; isReviewed := isReviewed sb |}.

Definition StatusBar_setText (text : string) (sb : StatusBar) : StatusBar :=
  {| sb_hidden := sb_hidden sb; sb_text := text; isReviewed := isReviewed sb |}.

Definition StatusBar_update : M unit :=
  modify (fun w =>
    let vs := plugin_settings w in
    let sb := statusBar w in
    match snapshot vs with
    | None => set_statusBar (StatusBar_setIsVisible false sb) w
    | Some _ =>
        match getActiveFileStatus vs with
        | None | Some (stored deleted) =>
            set_statusBar (StatusBar_setIsVisible false sb) w
        | Some activeFileStatus =>
            let sb := StatusBar_setIsVisible (showStatusBar (settings vs)) sb in
            let sb :=
              {| sb_hidden := sb_hidden sb; sb_text := sb_text sb;
                 isReviewed := bool_decide (activeFileStatus = stored reviewed) |} in
            let text :=
              match activeFileStatus with
              | new => "New file"
              | stored to_review => "Not reviewed"
              | stored reviewed => "Reviewed"
              | stored deleted => "Unknown status"
              end in
            set_statusBar (StatusBar_setText text sb) w
        end
    end).

Definition onExternalSettingsChange : M unit :=
  loadSettings ;; StatusBar_update.

(** [Math.floor(Math.random() * n)] *)
Definition random_index (n : nat) : nat :=
  Math_floor_mul (Math_random h) n.

(** [focusFile(file, newLeaf)] *)
Definition focusFile (file : File) (newLeaf : bool) : M unit :=
  match vault_getFileByPath h (path file) with
  | Some targetFile => openFile targetFile
  | None =>
      Notice ("Cannot find a file " +:+ path file) ;;
      vs <- gets plugin_settings ;;
      match snapshot vs with
      | Some _ =>
          assign_settings
            (update_files (filter (fun fp => path fp ≠ path file))) ;;
          StatusBar_update ;;
          saveSettings
      | None => ret tt
      end
  end.

(** [openRandomFile]; the index drawn is below [files.length], so the last
    case of the lookup does not arise. *)
Definition openRandomFile : M unit :=
  vs <- gets plugin_settings ;;
  match snapshot vs with
  | None => Notice "Vault review snapshot is not created"
  | Some _ =>
      let files := getToReviewFiles vs in
      if bool_decide (length files = 0) then Notice "All files are reviewed"
      else
        match files !! random_index (length files) with
        | Some randomFile => focusFile randomFile false
        | None => ret tt
        end
  end.

(** [file ?? this.getActiveFile()] *)
Definition file_or_active (file : option File) : option FileLike :=
  match file with
  | Some f => Some (OfFile f)
  | None => OfTFile <$> getActiveFile
  end.

(** [completeReview({ file, openNext = false })] *)
Definition completeReview (file : option File) (openNext : bool) : M unit :=
  match file_or_active file with
  | None => ret tt
  | Some activeFile =>
      vs <- gets plugin_settings ;;
      match getSnapshotFile vs (Some (like_path activeFile)) with
      | None =>
          Notice "File was added to snapshot and marked as reviewed" ;;
          assign_settings
            (update_files (fun fs => fs ++ [toFile activeFile reviewed]))
      | Some (i, _) =>
          assign_settings (update_files (alter (set_status reviewed) i))
      end ;;
      when openNext openRandomFile ;;
      StatusBar_update ;;
      saveSettings
  end.

(** [unreviewFile(file?)] *)
Definition unreviewFile (file : option File) : M unit :=
  match file_or_active file with
  | None => ret tt
  | Some activeFile =>
      vs <- gets plugin_settings ;;
      match getSnapshotFile vs (Some (like_path activeFile)) with
      | None =>
          Notice "File was added to snapshot and marked as not reviewed" ;;
          assign_settings
            (update_files (fun fs => fs ++ [toFile activeFile to_review]))
      | Some (i, _) =>
          assign_settings (update_files (alter (set_status to_review) i))
      end ;;
      StatusBar_update ;;
      saveSettings
  end.

(** [type DeleteSnapshotResult = "deleted" | "cancelled"] *)
Inductive DeleteSnapshotResult : Set :=
  | result_deleted
  | result_cancelled.

(** [deleteSnapshot({ askForConfirmation = true })]. The value is what the
    promise is resolved with, which is the argument of the first call of
    [resolve]: [onCancel] calls it at once, and it is also the [onClose] of
    the modal; [onDelete] calls it last, after [await this.saveSettings()], so
    that a modal closed during that save has resolved the promise before.
    Without a modal [onDelete] is awaited, and nothing comes in between. *)
Definition deleteSnapshot (askForConfirmation : bool) : M DeleteSnapshotResult :=
  let onDelete :=
    assign_settings (set_snapshot None) ;;
    StatusBar_update ;;
    saveSettings in
  if askForConfirmation then
    match confirm_delete h with
    | modal_cancel => ret result_cancelled
    | modal_delete again closed =>
        onDelete ;;
        times again onDelete ;;
        ret (if closed then result_cancelled else result_deleted)
    end
  else
    onDelete ;;
    ret result_deleted.

(** [handleFileRename(file, oldPath)] *)
Definition handleFileRename (file : TAbstractFile) (oldPath : string) : M unit :=
  match file with
  | AFolder _ => ret tt
  | AFile _ =>
      vs <- gets plugin_settings ;;
      match getSnapshotFile vs (Some oldPath) with
      | Some (i, _) =>
          assign_settings (update_files (alter (set_path (abstract_path file)) i)) ;;
          saveSettings
      | None => ret tt
      end
  end.

(** [handleFileDelete(file)] *)
Definition handleFileDelete (file : TAbstractFile) : M unit :=
  vs <- gets plugin_settings ;;
  match file, snapshot vs with
  | AFolder _, _ | _, None => ret tt
  | AFile _, Some _ =>
      match getSnapshotFile vs (Some (abstract_path file)) with
      | Some (i, _) =>
          assign_settings (update_files (alter (set_status deleted) i)) ;;
          StatusBar_update ;;
          saveSettings
      | None => ret tt
      end
  end.

(** ** The settings tab *)

(** [VaultReviewSettingTab.display]: the buttons of the snapshot setting,
    chosen by the snapshot read when the panel is drawn. *)
Definition display : M unit :=
  modify (fun w =>
    match snapshot (plugin_settings w) with
    | Some _ => set_panel [DeleteSnapshotButton; AddAllNewFilesButton] w
    | None => set_panel [CreateSnapshotButton] w
    end).

(** [this.plugin.settings.snapshot?.files.some((f) => f.path === file.path)],
    which is [undefined], hence falsy, without a snapshot. *)
Definition in_snapshot (vs : VaultReviewSettings) (file : TFile) : bool :=
  match snapshot vs with
  | Some s => bool_decide (Exists (fun f => path f = tfile_path file) (files s))
  | None => false
  end.

(** The click handler of "Add all new files to snapshot". *)
Definition addNewFiles : M unit :=
  vs <- gets plugin_settings ;;
  let vaultFiles :=
    (fun file => toFile (OfTFile file) to_review) <$>
    filter (fun file => ¬ in_snapshot vs file) (vault_getMarkdownFiles h) in
  assign_settings (update_files (fun fs => fs ++ vaultFiles)) ;;
  StatusBar_update ;;
  display ;;
  saveSettings.

(** The click handler of "Create snapshot". *)
Definition createSnapshot : M unit :=
  let files :=
    (fun file => toFile (OfTFile file) to_review) <$> vault_getMarkdownFiles h in
  assign_settings (set_snapshot (Some {| files := files; createdAt := new_Date h |})) ;;
  StatusBar_update ;;
  display ;;
  saveSettings.

(** The click handler of the trash button. *)
Definition clickDeleteSnapshot : M unit :=
  deleteSnapshot true ;;
  display.

(** A click on a button: only a button that the panel shows can be clicked.
    The value says whether there was such a button. *)
Definition click (b : Button) : M bool :=
  shown <- gets (fun w => bool_decide (b ∈ panel w)) ;;
  if shown then
    match b with
    | DeleteSnapshotButton => clickDeleteSnapshot
    | AddAllNewFilesButton => addNewFiles
    | CreateSnapshotButton => createSnapshot
    end ;;
    ret true
  else ret false.

End Plugin.

(** ** Sequences of operations on the ledger *)

(** The operations that change the records of the ledger, each with what the
    host passes to its handler. *)
Inductive Op : Set :=
  | OpReview (file : option File) (openNext : bool)
  | OpUnreview (file : option File)
  | OpOpenRandom
  | OpRename (file : TAbstractFile) (oldPath : string)
  | OpDelete (file : TAbstractFile)
  | OpAddNewFiles
  | OpCreateSnapshot.

Definition run_op (h : Host) (op : Op) : M unit :=
  match op with
  | OpReview file openNext => completeReview h file openNext
  | OpUnreview file => unreviewFile h file
  | OpOpenRandom => openRandomFile h
  | OpRename file oldPath => handleFileRename h file oldPath
  | OpDelete file => handleFileDelete h file
  | OpAddNewFiles => addNewFiles h
  | OpCreateSnapshot => createSnapshot h
  end.

(** Operations in sequence, each with the host as it is when it runs. *)
Fixpoint run_ops (ops : list (Host * Op)) (w : World) : World :=
  match ops with
  | [] => w
  | (h, op) :: ops => run_ops ops (exec (run_op h op) w)
  end.

(** I1: no two records of the snapshot share a path. *)
Definition distinct_paths (vs : VaultReviewSettings) : Prop :=
  match snapshot vs with
  | Some s => NoDup (path <$> files s)
  | None => True
  end.

(** The operations under which the handlers keep I1: a file is marked under a
    non-empty path, a file is renamed to a path that has no record (or to its
    own), and the vault lists each Markdown file once. *)
Definition keeps_distinct (h : Host) (vs : VaultReviewSettings) (op : Op) : Prop :=
  match op with
  | OpReview file _ | OpUnreview file =>
      forall activeFile, file_or_active h file = Some activeFile ->
                         like_path activeFile ≠ ""
  | OpRename (AFile f) oldPath =>
      tfile_path f = oldPath
      \/ forall s, snapshot vs = Some s -> tfile_path f ∉ path <$> files s
  | OpAddNewFiles | OpCreateSnapshot =>
      NoDup (tfile_path <$> vault_getMarkdownFiles h)
  | OpRename (AFolder _) _ | OpOpenRandom | OpDelete _ => True
  end.

(** I4: the ledger [vs'] is of the same campaign as [vs]: a snapshot is
    present in both or in neither, with the same creation date, and the
    settings are the same. *)
Definition same_campaign (vs vs' : VaultReviewSettings) : Prop :=
  createdAt <$> snapshot vs' = createdAt <$> snapshot vs
  /\ settings vs' = settings vs.

(** A handler that stays within the campaign, whatever the state it runs in. *)
Definition within_campaign {A} (m : M A) : Prop :=
  forall w, same_campaign (plugin_settings w) (plugin_settings (exec m w)).

Fixpoint all_keep_distinct (ops : list (Host * Op)) (w : World) : Prop :=
  match ops with
  | [] => True
  | (h, op) :: ops =>
      keeps_distinct h (plugin_settings w) op
      /\ all_keep_distinct ops (exec (run_op h op) w)
  end.

(** The settings after the step of [completeReview] and [unreviewFile] that
    writes the status [st] for [activeFile]. *)
Definition marked (h : Host) (st : SnapshotFileStatus) (activeFile : FileLike)
    (vs : VaultReviewSettings) : VaultReviewSettings :=
  match getSnapshotFile h vs (Some (like_path activeFile)) with
  | None => update_files (fun fs => fs ++ [toFile activeFile st]) vs
  | Some (i, _) => update_files (alter (set_status st) i) vs
  end.

(** ** Commands, the status bar menu and the status toggle *)

(** The three commands that [onload] registers with a [checkCallback]. *)
Inductive CheckedCommand : Set :=
  | complete_review
  | complete_review_and_open_next
  | unreview_file.

(** An item of the menu of the status bar: its title, its check mark, and the
    handler of a click on it. *)
Record MenuItem : Type := mkMenuItem {
  item_title : string;
  item_checked : bool;
  item_onClick : M unit;
}.

Section Commands.

Variable h : Host.

Local Open Scope m_scope.

(** [checkCallback: (checking) => { if (checking) { return
    this.getActiveFileStatus() === ...; } this....(); }]: the value is the
    boolean returned when checking, and [undefined] otherwise. *)
Definition checkCallback (c : CheckedCommand) (checking : bool) : M (option bool) :=
  if checking then
    vs <- gets plugin_settings ;;
    ret (Some
      match c with
      | complete_review | complete_review_and_open_next =>
          bool_decide (getActiveFileStatus h vs = Some (stored to_review))
      | unreview_file =>
          bool_decide (getActiveFileStatus h vs = Some (stored reviewed))
      end)
  else
    match c with
    | complete_review => completeReview h None false
    | complete_review_and_open_next => completeReview h None true
    | unreview_file => unreviewFile h None
    end ;;
    ret None.

(** [StatusBar.onClick]: the two items of the menu it shows. *)
Definition StatusBar_onClick (sb : StatusBar) : list MenuItem :=
  [ {| item_title := "Reviewed";
       item_checked := isReviewed sb;
       item_onClick := completeReview h None false |};
    {| item_title := "Not reviewed";
       item_checked := negb (isReviewed sb);
       item_onClick := unreviewFile h None |} ].

(** The [onChange] of the "Status bar" toggle of the settings tab. *)
Definition toggle_onChange (value : bool) : M unit :=
  assign_settings (fun vs =>
    {| snapshot := snapshot vs; settings := {| showStatusBar := value |} |}) ;;
  StatusBar_update h ;;
  saveSettings.

End Commands.

(** ** The file status controller *)

(** [type Action = keyof typeof ACTIONS] *)
Inductive Action : Set :=
  | open_random
  | review
  | review_and_next
  | unreview.

#[global] Instance Action_eq_dec : EqDecision Action.
Proof. solve_decision. Defined.

(** [ACTIONS[a].name] *)
Definition ACTIONS_name (a : Action) : string :=
  match a with
  | open_random => "Open random not reviewed file"
  | review => "Review file"
  | review_and_next => "Review file and open next random file"
  | unreview => "Unreview file"
  end.

(** [s.includes(sub)] *)
Fixpoint includes (s sub : string) : bool :=
  String.prefix sub s ||
  match s with
  | EmptyString => false
  | String _ s' => includes s' sub
  end.

Section Controller.

Variable h : Host.

(** [String.prototype.toLowerCase], which the host provides. *)
Variable toLowerCase : string -> string.

Local Open Scope m_scope.

(** The placeholder that the constructor of [FileStatusControllerModal]
    sets. *)
Definition modal_placeholder (vs : VaultReviewSettings) : string :=
  match getActiveFileStatus h vs with
  | None => ""
  | Some new => "This file is not in snapshot"
  | Some (stored to_review) => "This file is not reviewed"
  | Some _ => "This file is reviewed"
  end.

(** [openFileStatusController]: the value is the placeholder of the modal
    that opens, if one does. *)
Definition openFileStatusController : M (option string) :=
  vs <- gets plugin_settings ;;
  match snapshot vs with
  | None => Notice "Vault review snapshot is not created" ;; ret None
  | Some _ => ret (Some (modal_placeholder vs))
  end.

(** [getSuggestions(query)] *)
Definition getSuggestions (vs : VaultReviewSettings) (query : string) : list Action :=
  let actions :=
    match getActiveFile h with
    | None => [open_random]
    | Some activeFile =>
        let isReviewed :=
          bool_decide
            (status ∘ snd <$> getSnapshotFile h vs (Some (tfile_path activeFile))
             = Some reviewed) in
        if isReviewed then [open_random; unreview]
        else [review_and_next; review; open_random]
    end in
  filter (fun a => includes (toLowerCase (ACTIONS_name a)) (toLowerCase query))
         actions.

(** [onChooseSuggestion(action, _evt)] *)
Definition onChooseSuggestion (action : Action) : M unit :=
  when (bool_decide (action = open_random)) (openRandomFile h) ;;
  when (bool_decide (action = review)) (completeReview h None false) ;;
  when (bool_decide (action = review_and_next)) (completeReview h None true) ;;
  when (bool_decide (action = unreview)) (unreviewFile h None).

End Controller.

(** ** The figures of the settings tab *)

(** The counts that [display] shows under the snapshot setting; the two
    percentages, which are rounded quotients of floating-point numbers, are
    left out. *)
Record SnapshotInfo : Set := mkSnapshotInfo {
  allFilesLength : Z;
  snapshotFilesLength : Z;
  deletedFilesLength : Z;
  notInSnapshotLength : Z;
  reviewedFilesLength : Z;
  toReviewFilesLength : Z;
  activeFilesLength : Z;
}.

Definition snapshot_info (h : Host) (snapshot : Snapshot) : SnapshotInfo :=
  let allFilesLength := Z.of_nat (length (vault_getMarkdownFiles h)) in
  let snapshotFilesLength := Z.of_nat (length (files snapshot)) in
  let deletedFilesLength :=
    Z.of_nat (length (filter (fun file => status file = deleted) (files snapshot))) in
  let notInSnapshotLength :=
    (allFilesLength - snapshotFilesLength + deletedFilesLength)%Z in
  let reviewedFilesLength :=
    Z.of_nat (length (filter (fun file => status file = reviewed) (files snapshot))) in
  let toReviewFilesLength :=
    (snapshotFilesLength - reviewedFilesLength - deletedFilesLength)%Z in
  let activeFilesLength := (snapshotFilesLength - deletedFilesLength)%Z in
  {| allFilesLength := allFilesLength;
     snapshotFilesLength := snapshotFilesLength;
     deletedFilesLength := deletedFilesLength;
     notInSnapshotLength := notInSnapshotLength;
     reviewedFilesLength := reviewedFilesLength;
     toReviewFilesLength := toReviewFilesLength;
     activeFilesLength := activeFilesLength |}.

(** ** The entry points of the plugin *)

(** What the user and Obsidian can make the plugin do, the loading of the
    settings apart. *)
Inductive Entry : Type :=
  | EOp (op : Op)
  | ECommand (c : CheckedCommand) (checking : bool)
  | EMenu (n : nat)
  | EToggle (value : bool)
  | EClick (b : Button)
  | EDeleteSnapshot (askForConfirmation : bool)
  | EOpenController
  | EChoose (action : Action).

Definition run_entry (h : Host) (e : Entry) : M unit :=
  match e with
  | EOp op => run_op h op
  | ECommand c checking => bind (checkCallback h c checking) (fun _ => ret tt)
  | EMenu n =>
      bind (gets statusBar) (fun sb =>
        match StatusBar_onClick h sb !! n with
        | Some item => item_onClick item
        | None => ret tt
        end)
  | EToggle value => toggle_onChange h value
  | EClick b => bind (click h b) (fun _ => ret tt)
  | EDeleteSnapshot ask => bind (deleteSnapshot h ask) (fun _ => ret tt)
  | EOpenController => bind (openFileStatusController h) (fun _ => ret tt)
  | EChoose action => onChooseSuggestion h action
  end.

(** The settings are saved: the last call of [saveData] was given the
    settings as they are now. *)
Definition synced (w : World) : Prop :=
  last (saved w) = Some (plugin_settings w).

(** The status bar shows the status of the active file: it is hidden without
    a snapshot, without an active Markdown file, and for a deleted file;
    otherwise it is shown if the settings say so, with the text of the status
    of the active file, and [isReviewed] says whether that is [reviewed]. *)
Definition status_text (st : FileStatus) : string :=
  match st with
  | new => "New file"
  | stored to_review => "Not reviewed"
  | stored reviewed => "Reviewed"
  | stored deleted => "Unknown status"
  end.

Definition bar_agrees (h : Host) (vs : VaultReviewSettings) (sb : StatusBar) : Prop :=
  match snapshot vs, getActiveFileStatus h vs with
  | Some _, Some st =>
      if bool_decide (st = stored deleted) then sb_hidden sb = true
      else sb_hidden sb = negb (showStatusBar (settings vs))
           /\ sb_text sb = status_text st
           /\ isReviewed sb = bool_decide (st = stored reviewed)
  | _, _ => sb_hidden sb = true
  end.

(** The snapshot setting of the settings tab shows the buttons that go with
    the ledger: the trash and the add button with a snapshot, the create
    button without. *)
Definition has_snapshot (vs : VaultReviewSettings) : bool :=
  match snapshot vs with
  | Some _ => true
  | None => false
  end.

Definition panel_agrees (vs : VaultReviewSettings) (bs : list Button) : Prop :=
  bs = if has_snapshot vs then [DeleteSnapshotButton; AddAllNewFilesButton]
       else [CreateSnapshotButton].

(** ** Handlers and what depends on the settings

    A part of the world (the data file, the status bar, the settings panel)
    is kept in step with the settings by a step of its own ([saveSettings],
    [StatusBar.update], [display]). For a [view] of the world, which pairs the
    settings with that part, and a property [good] of the view, a handler can
    leave the view as it is, always end with a good view, or do the one or
    the other depending on the state it runs in. *)

Section Tracking.

Context {V : Type} (view : World -> V) (good : V -> Prop).

Definition stays {A} (m : M A) : Prop :=
  forall w, view (exec m w) = view w.

Definition ends_good {A} (m : M A) : Prop :=
  forall w, good (view (exec m w)).

Definition stays_or_ends_good {A} (m : M A) : Prop :=
  forall w, view (exec m w) = view w \/ good (view (exec m w)).

End Tracking.

Definition data_view (w : World) : VaultReviewSettings * list VaultReviewSettings :=
  (plugin_settings w, saved w).

Definition data_good (v : VaultReviewSettings * list VaultReviewSettings) : Prop :=
  last (snd v) = Some (fst v).

Definition bar_view (w : World) : VaultReviewSettings * StatusBar :=
  (plugin_settings w, statusBar w).

Definition bar_good (h : Host) (v : VaultReviewSettings * StatusBar) : Prop :=
  bar_agrees h (fst v) (snd v).

Definition panel_view (w : World) : bool * list Button :=
  (has_snapshot (plugin_settings w), panel w).

Definition panel_good (v : bool * list Button) : Prop :=
  snd v = if fst v then [DeleteSnapshotButton; AddAllNewFilesButton]
          else [CreateSnapshotButton].

(** ** Concrete vaults and ledgers

    The inputs of the worked examples below. *)

Definition md (p : string) : TFile := {| tfile_path := p; extension := "md" |}.

Definition one_half : Random :=
  {| rnd_mant := 1; rnd_exp := 1; rnd_ok := eq_refl |}.

(** A host whose vault holds the files [vault], with [activeFile] in the
    active view and [data] in the plugin's data file. *)
Definition vault_host (activeFile : option TFile) (vault : list TFile)
    (data : option Data) : Host :=
  {| workspace_getActiveFile := activeFile;
     vault_getMarkdownFiles := filter (fun f => extension f = "md") vault;
     vault_getFileByPath :=
       fun p => snd <$> list_find (fun f => tfile_path f = p) vault;
     new_Date := 1700000000000%Z;
     Math_random := one_half;
     loadData := data;
     confirm_delete := modal_delete 0 false |}.

(** The host [h], with the user doing [answer] in the confirmation modal. *)
Definition with_answer (answer : ModalAnswer) (h : Host) : Host :=
  {| workspace_getActiveFile := workspace_getActiveFile h;
     vault_getMarkdownFiles := vault_getMarkdownFiles h;
     vault_getFileByPath := vault_getFileByPath h;
     new_Date := new_Date h;
     Math_random := Math_random h;
     loadData := loadData h;
     confirm_delete := answer |}.

(** A snapshot of the records [fs], and the settings that hold it. *)
Definition snapshot_of (fs : list File) : Snapshot :=
  {| files := fs; createdAt := 1600000000000%Z |}.

Definition ledger (fs : list File) : VaultReviewSettings :=
  {| snapshot := Some (snapshot_of fs);
     settings := {| showStatusBar := true |} |}.

(** The plugin just loaded with the settings [vs]. *)
Definition world_of (vs : VaultReviewSettings) : World :=
  {| plugin_settings := vs;
     statusBar := {| sb_hidden := true; sb_text := "Not reviewed";
                     isReviewed := false |};
     notices := []; saved := []; opened := []; panel := [] |}.

(** * Properties *)

(** ** The monad *)

Lemma exec_bind {A B} (m : M A) (k : A -> M B) w :
  exec (bind m k) w = exec (k (value_of m w)) (exec m w).
Proof. unfold exec, value_of, bind. by destruct (m w). Qed.

Lemma value_of_bind {A B} (m : M A) (k : A -> M B) w :
  value_of (bind m k) w = value_of (k (value_of m w)) (exec m w).
Proof. unfold exec, value_of, bind. by destruct (m w). Qed.

Lemma exec_gets {A} (f : World -> A) w : exec (gets f) w = w.
Proof. done. Qed.

Lemma value_of_gets {A} (f : World -> A) w : value_of (gets f) w = f w.
Proof. done. Qed.

Lemma exec_modify f w : exec (modify f) w = f w.
Proof. done. Qed.

Lemma exec_when b m w : exec (when b m) w = if b then exec m w else w.
Proof. by destruct b. Qed.

(** Membership in a log that only grows at its end. *)
Ltac solve_elem :=
  repeat rewrite elem_of_app; repeat rewrite list_elem_of_singleton; tauto.

(** ** What the effects leave alone *)

Section Frames.

Variable h : Host.

(** [StatusBar.update] writes to the status bar only. *)
Lemma StatusBar_update_frame w :
  exists sb, exec (StatusBar_update h) w = set_statusBar sb w.
Proof.
  unfold StatusBar_update. rewrite exec_modify.
  destruct (snapshot (plugin_settings w)); [|by eexists].
  destruct (getActiveFileStatus h (plugin_settings w)) as [[|[]]|]; by eexists.
Qed.

Lemma StatusBar_update_settings w :
  plugin_settings (exec (StatusBar_update h) w) = plugin_settings w.
Proof. by destruct (StatusBar_update_frame w) as [sb ->]. Qed.

Lemma StatusBar_update_notices w :
  notices (exec (StatusBar_update h) w) = notices w.
Proof. by destruct (StatusBar_update_frame w) as [sb ->]. Qed.

Lemma StatusBar_update_saved w :
  saved (exec (StatusBar_update h) w) = saved w.
Proof. by destruct (StatusBar_update_frame w) as [sb ->]. Qed.

Lemma StatusBar_update_opened w :
  opened (exec (StatusBar_update h) w) = opened w.
Proof. by destruct (StatusBar_update_frame w) as [sb ->]. Qed.

Lemma saveSettings_settings w :
  plugin_settings (exec saveSettings w) = plugin_settings w.
Proof. done. Qed.

Lemma Notice_settings msg w :
  plugin_settings (exec (Notice msg) w) = plugin_settings w.
Proof. done. Qed.

Lemma assign_settings_settings g w :
  plugin_settings (exec (assign_settings g) w) = g (plugin_settings w).
Proof. done. Qed.

Lemma display_settings w : plugin_settings (exec display w) = plugin_settings w.
Proof.
  unfold display. rewrite exec_modify.
  by destruct (snapshot (plugin_settings w)).
Qed.

End Frames.

(** ** The ledger without a snapshot *)

Lemma update_files_None g vs : snapshot vs = None -> update_files g vs = vs.
Proof. unfold update_files. by intros ->. Qed.

Lemma update_files_Some g vs s :
  snapshot vs = Some s ->
  update_files g vs =
    {| snapshot := Some {| files := g (files s); createdAt := createdAt s |};
       settings := settings vs |}.
Proof. unfold update_files. by intros ->. Qed.

Lemma getSnapshotFile_None h vs path_ :
  snapshot vs = None -> getSnapshotFile h vs path_ = None.
Proof.
  intros Hs. unfold getSnapshotFile. rewrite Hs.
  repeat case_match; done.
Qed.

Section Ledger.

Variable h : Host.

(** The ledger that [openRandomFile] leaves: the one it found, or the one
    [focusFile] leaves for a record to review. *)
Lemma openRandomFile_settings w :
  plugin_settings (exec (openRandomFile h) w) = plugin_settings w \/
  exists f, f ∈ getToReviewFiles (plugin_settings w) /\
    exec (openRandomFile h) w = exec (focusFile h f false) w.
Proof.
  unfold openRandomFile. rewrite exec_bind, value_of_gets, exec_gets.
  destruct (snapshot (plugin_settings w)); [|by left].
  case_bool_decide; [by left|].
  destruct (_ !! _) as [f|] eqn:Hf; [|by left].
  right. exists f. split; [|done]. by eapply list_elem_of_lookup_2.
Qed.

Lemma focusFile_settings_None file newLeaf w :
  snapshot (plugin_settings w) = None ->
  plugin_settings (exec (focusFile h file newLeaf) w) = plugin_settings w.
Proof.
  intros Hs. unfold focusFile. destruct (vault_getFileByPath _ _); [done|].
  rewrite !exec_bind, value_of_gets, exec_gets.
  change (plugin_settings (exec (Notice _) w)) with (plugin_settings w).
  by rewrite Hs.
Qed.

Lemma openRandomFile_settings_None w :
  snapshot (plugin_settings w) = None ->
  plugin_settings (exec (openRandomFile h) w) = plugin_settings w.
Proof.
  intros Hs. unfold openRandomFile. rewrite exec_bind, value_of_gets, exec_gets.
  by rewrite Hs.
Qed.

End Ledger.

(** ** Review and unreview *)

Section Review.

Variable h : Host.

(** The ledger after [completeReview] without [openNext]. *)
Lemma completeReview_settings file w :
  plugin_settings (exec (completeReview h file false) w) =
    let vs := plugin_settings w in
    match file_or_active h file with
    | None => vs
    | Some activeFile =>
        match getSnapshotFile h vs (Some (like_path activeFile)) with
        | None => update_files (fun fs => fs ++ [toFile activeFile reviewed]) vs
        | Some (i, _) => update_files (alter (set_status reviewed) i) vs
        end
    end.
Proof.
  unfold completeReview. cbn zeta.
  destruct (file_or_active h file) as [activeFile|]; [|done].
  rewrite !exec_bind, value_of_gets, exec_gets, exec_when.
  rewrite saveSettings_settings, StatusBar_update_settings.
  destruct (getSnapshotFile _ _ _) as [[i ?]|]; [done|].
  by rewrite exec_bind, assign_settings_settings.
Qed.

(** The ledger after [unreviewFile]. *)
Lemma unreviewFile_settings file w :
  plugin_settings (exec (unreviewFile h file) w) =
    let vs := plugin_settings w in
    match file_or_active h file with
    | None => vs
    | Some activeFile =>
        match getSnapshotFile h vs (Some (like_path activeFile)) with
        | None => update_files (fun fs => fs ++ [toFile activeFile to_review]) vs
        | Some (i, _) => update_files (alter (set_status to_review) i) vs
        end
    end.
Proof.
  unfold unreviewFile. cbn zeta.
  destruct (file_or_active h file) as [activeFile|]; [|done].
  rewrite !exec_bind, value_of_gets, exec_gets.
  rewrite saveSettings_settings, StatusBar_update_settings.
  destruct (getSnapshotFile _ _ _) as [[i ?]|]; [done|].
  by rewrite exec_bind, assign_settings_settings.
Qed.

(** The notices of [completeReview] start with those of its first branch. *)
Lemma completeReview_notices_absent file openNext w activeFile :
  file_or_active h file = Some activeFile ->
  getSnapshotFile h (plugin_settings w) (Some (like_path activeFile)) = None ->
  "File was added to snapshot and marked as reviewed"
    ∈ notices (exec (completeReview h file openNext) w).
Proof.
  intros Ha Hg. unfold completeReview. rewrite Ha.
  rewrite !exec_bind, value_of_gets, exec_gets, Hg.
  set (w1 := exec (Notice _ ;; assign_settings _)%M w).
  assert (H1 : notices w1 =
    notices w ++ ["File was added to snapshot and marked as reviewed"]) by done.
  change (notices (exec saveSettings ?x)) with (notices x).
  rewrite StatusBar_update_notices, exec_when.
  assert (Hin : "File was added to snapshot and marked as reviewed" ∈ notices w1).
  { rewrite H1. solve_elem. }
  destruct openNext; [|done].
  unfold openRandomFile. rewrite exec_bind, value_of_gets, exec_gets.
  destruct (snapshot (plugin_settings w1)).
  - case_bool_decide.
    + change (notices (exec (Notice ?m) ?x)) with (notices x ++ [m]). solve_elem.
    + destruct (_ !! _) as [f|]; [|done].
      unfold focusFile. destruct (vault_getFileByPath _ _).
      * done.
      * rewrite !exec_bind, value_of_gets, exec_gets.
        set (w2 := exec (Notice _) w1).
        assert (Hin2 : "File was added to snapshot and marked as reviewed"
                         ∈ notices w2).
        { change (notices w2) with (notices w1 ++ ["Cannot find a file " +:+ path f]).
          solve_elem. }
        destruct (snapshot (plugin_settings w2)); [|done].
        rewrite !exec_bind.
        change (notices (exec saveSettings ?x)) with (notices x).
        by rewrite StatusBar_update_notices.
  - change (notices (exec (Notice ?m) ?x)) with (notices x ++ [m]). solve_elem.
Qed.

Lemma unreviewFile_notices_absent file w activeFile :
  file_or_active h file = Some activeFile ->
  getSnapshotFile h (plugin_settings w) (Some (like_path activeFile)) = None ->
  "File was added to snapshot and marked as not reviewed"
    ∈ notices (exec (unreviewFile h file) w).
Proof.
  intros Ha Hg. unfold unreviewFile. rewrite Ha.
  rewrite !exec_bind, value_of_gets, exec_gets, Hg.
  change (notices (exec saveSettings ?x)) with (notices x).
  rewrite StatusBar_update_notices.
  change (notices (exec (Notice ?m ;; assign_settings ?g)%M ?x))
    with (notices x ++ [m]).
  solve_elem.
Qed.

(** C10. Without a snapshot, [completeReview] (with or without [openNext]) and
    [unreviewFile] leave the ledger as it is: the snapshot stays absent and no
    record is created. This holds on the branch that tells the user that the
    file was added to the snapshot, which both take whenever there is a file
    to mark. *)
Theorem review_without_snapshot file openNext w :
  snapshot (plugin_settings w) = None ->
  plugin_settings (exec (completeReview h file openNext) w) = plugin_settings w
  /\ plugin_settings (exec (unreviewFile h file) w) = plugin_settings w
  /\ (is_Some (file_or_active h file) ->
      "File was added to snapshot and marked as reviewed"
        ∈ notices (exec (completeReview h file openNext) w)
      /\ "File was added to snapshot and marked as not reviewed"
        ∈ notices (exec (unreviewFile h file) w)).
Proof.
  intros Hs. split_and!.
  - unfold completeReview.
    destruct (file_or_active h file) as [activeFile|]; [|done].
    rewrite !exec_bind, value_of_gets, exec_gets, exec_when.
    rewrite saveSettings_settings, StatusBar_update_settings.
    rewrite getSnapshotFile_None by done.
    rewrite exec_bind.
    set (w1 := exec (assign_settings _) _).
    assert (H1 : plugin_settings w1 = plugin_settings w).
    { unfold w1. rewrite assign_settings_settings, Notice_settings.
      by apply update_files_None. }
    destruct openNext; [|done].
    rewrite openRandomFile_settings_None; congruence.
  - rewrite unreviewFile_settings. cbn zeta.
    destruct (file_or_active h file) as [activeFile|]; [|done].
    rewrite getSnapshotFile_None by done. by apply update_files_None.
  - intros [activeFile Ha]. split.
    + eapply completeReview_notices_absent; [done|]. by apply getSnapshotFile_None.
    + eapply unreviewFile_notices_absent; [done|]. by apply getSnapshotFile_None.
Qed.

End Review.

(** ** Looking records up by path *)

Lemma getSnapshotFile_path h vs s p :
  p ≠ "" -> snapshot vs = Some s ->
  getSnapshotFile h vs (Some p) = list_find (fun f => path f = p) (files s).
Proof.
  intros Hp Hs. unfold getSnapshotFile. rewrite Hs.
  by rewrite bool_decide_eq_false_2.
Qed.

(** An update that keeps paths does not move the record found. *)
Lemma list_find_path_alter p g i (l : list File) x :
  (forall y, path (g y) = path y) ->
  list_find (fun f => path f = p) l = Some (i, x) ->
  list_find (fun f => path f = p) (alter g i l) = Some (i, g x).
Proof.
  intros Hg (Hi & Hx & Hfirst)%list_find_Some. apply list_find_Some.
  split_and!.
  - by rewrite list_lookup_alter_eq, Hi.
  - by rewrite Hg.
  - intros j y Hj Hlt. rewrite list_lookup_alter_ne in Hj by lia. eauto.
Qed.

(** A record pushed for a path that had none is the one found next. *)
Lemma list_find_path_snoc p (l : list File) x :
  list_find (fun f => path f = p) l = None -> path x = p ->
  list_find (fun f => path f = p) (l ++ [x]) = Some (length l, x).
Proof.
  intros Hl Hx. rewrite list_find_app_r by done. cbn.
  by rewrite decide_True.
Qed.

Lemma alter_twice_const {A} (g : A -> A) i (l : list A) :
  (forall y, g (g y) = g y) -> alter g i (alter g i l) = alter g i l.
Proof.
  intros Hg. rewrite list_alter_alter_eq. apply list_alter_ext; [|done].
  intros x _. apply Hg.
Qed.

Section Idempotence.

Variable h : Host.

(** C4 (amended). For a file with a non-empty path, [completeReview] applied
    twice in a row leaves the same ledger as applied once; with a snapshot,
    the second call finds the record of that path, and finds it reviewed. *)
Theorem completeReview_twice file w :
  (forall activeFile, file_or_active h file = Some activeFile ->
     like_path activeFile ≠ "") ->
  let w1 := exec (completeReview h file false) w in
  plugin_settings (exec (completeReview h file false) w1) = plugin_settings w1
  /\ (forall activeFile, file_or_active h file = Some activeFile ->
      is_Some (snapshot (plugin_settings w)) ->
      exists i r,
        getSnapshotFile h (plugin_settings w1) (Some (like_path activeFile))
          = Some (i, r)
        /\ path r = like_path activeFile /\ status r = reviewed).
Proof.
  intros Hpath w1.
  assert (H1 : plugin_settings w1 = _) by apply completeReview_settings.
  cbn zeta in H1. rewrite completeReview_settings. cbn zeta.
  destruct (file_or_active h file) as [activeFile|]; [|by split].
  specialize (Hpath activeFile eq_refl).
  destruct (snapshot (plugin_settings w)) as [s|] eqn:Hs.
  - rewrite (getSnapshotFile_path _ _ s) in H1 by done.
    destruct (list_find _ (files s)) as [[i x]|] eqn:Hfind.
    + rewrite (update_files_Some _ _ s) in H1 by done.
      assert (Hfind1 : getSnapshotFile h (plugin_settings w1)
                (Some (like_path activeFile)) = Some (i, set_status reviewed x)).
      { rewrite H1. erewrite getSnapshotFile_path; [|done..]. cbn.
        by apply list_find_path_alter. }
      split.
      * rewrite Hfind1, H1. erewrite update_files_Some by done. cbn.
        by rewrite alter_twice_const.
      * intros ? [= <-] _. exists i, (set_status reviewed x).
        split_and!; [done| |done].
        by apply list_find_Some in Hfind as (_ & ? & _).
    + rewrite (update_files_Some _ _ s) in H1 by done.
      assert (Hfind1 : getSnapshotFile h (plugin_settings w1)
                (Some (like_path activeFile))
                = Some (length (files s), toFile activeFile reviewed)).
      { rewrite H1. erewrite getSnapshotFile_path; [|done..]. cbn.
        by apply list_find_path_snoc. }
      split.
      * rewrite Hfind1, H1. erewrite update_files_Some by done. cbn.
        by rewrite alter_app_r_alt, Nat.sub_diag by lia.
      * intros ? [= <-] _. by eexists _, _.
  - rewrite getSnapshotFile_None in H1 by done.
    rewrite update_files_None in H1 by done.
    split.
    + rewrite H1, getSnapshotFile_None by done. by apply update_files_None.
    + by intros ? _ [? [=]].
Qed.

End Idempotence.

(** ** Reconciliation with the vault *)

Lemma list_find_Exists {A} (P : A -> Prop) `{!forall x, Decision (P x)} (l : list A) :
  Exists P l -> exists i x, list_find P l = Some (i, x).
Proof.
  intros (x & Hx & HP)%Exists_exists.
  destruct (list_find P l) as [[i y]|] eqn:Hf; [eauto|].
  rewrite list_find_None, Forall_forall in Hf.
  by destruct (Hf x Hx).
Qed.

(** The element found, updated in place: the other elements and the length
    stay. *)
Lemma alter_at_found {A} (g : A -> A) i (l : list A) x :
  l !! i = Some x ->
  alter g i l !! i = Some (g x)
  /\ (forall j, j ≠ i -> alter g i l !! j = l !! j)
  /\ length (alter g i l) = length l.
Proof.
  intros Hi. split_and!.
  - by rewrite list_lookup_alter_eq, Hi.
  - intros j Hj. by apply list_lookup_alter_ne.
  - apply length_alter.
Qed.

Section Reconciliation.

Variable h : Host.

Lemma handleFileRename_found f oldPath w s i r :
  snapshot (plugin_settings w) = Some s ->
  getSnapshotFile h (plugin_settings w) (Some oldPath) = Some (i, r) ->
  let w' := exec (handleFileRename h (AFile f) oldPath) w in
  plugin_settings w' =
    {| snapshot := Some {| files := alter (set_path (tfile_path f)) i (files s);
                           createdAt := createdAt s |};
       settings := settings (plugin_settings w) |}
  /\ saved w' = saved w ++ [plugin_settings w'].
Proof.
  intros Hs Hg. cbn zeta. unfold handleFileRename.
  rewrite !exec_bind, value_of_gets, exec_gets, Hg, exec_bind.
  unfold saveSettings. rewrite exec_modify. cbn [plugin_settings saved].
  rewrite assign_settings_settings.
  by rewrite (update_files_Some _ _ s).
Qed.

Lemma handleFileRename_absent file oldPath w :
  getSnapshotFile h (plugin_settings w) (Some oldPath) = None ->
  exec (handleFileRename h file oldPath) w = w.
Proof.
  intros Hg. unfold handleFileRename. destruct file; [|done].
  by rewrite !exec_bind, value_of_gets, exec_gets, Hg.
Qed.

(** C2 (amended). A rename notification for a file, from a non-empty
    [oldPath]: when a record has path [oldPath], the first such record gets
    the new path in place and keeps its status, every other record and the
    creation date stay, and the ledger is saved; if moreover no other record
    has path [oldPath] and the new path differs from it, no record with path
    [oldPath] remains. When no record has path [oldPath] (or there is no
    snapshot), nothing changes. A notification for a folder changes
    nothing. *)
Theorem handleFileRename_spec f oldPath w :
  oldPath ≠ "" ->
  let newPath := tfile_path f in
  let w' := exec (handleFileRename h (AFile f) oldPath) w in
  (forall s, snapshot (plugin_settings w) = Some s ->
     Exists (fun x => path x = oldPath) (files s) ->
     exists i r files',
       files s !! i = Some r /\ path r = oldPath
       /\ (forall j y, files s !! j = Some y -> j < i -> path y ≠ oldPath)
       /\ plugin_settings w' =
            {| snapshot := Some {| files := files'; createdAt := createdAt s |};
               settings := settings (plugin_settings w) |}
       /\ files' !! i = Some {| path := newPath; status := status r |}
       /\ (forall j, j ≠ i -> files' !! j = files s !! j)
       /\ length files' = length (files s)
       /\ saved w' = saved w ++ [plugin_settings w']
       /\ ((forall j y, files s !! j = Some y -> path y = oldPath -> j = i) ->
           newPath ≠ oldPath ->
           Forall (fun x => path x ≠ oldPath) files'))
  /\ ((forall s, snapshot (plugin_settings w) = Some s ->
        Forall (fun x => path x ≠ oldPath) (files s)) ->
      w' = w)
  /\ (forall folder_path,
      exec (handleFileRename h (AFolder folder_path) oldPath) w = w).
Proof.
  intros Hp newPath w'. split_and!; [| |done].
  - intros s Hs Hex.
    destruct (list_find_Exists _ _ Hex) as (i & r & Hfind).
    assert (Hg : getSnapshotFile h (plugin_settings w) (Some oldPath) = Some (i, r))
      by by rewrite (getSnapshotFile_path _ _ s).
    destruct (handleFileRename_found f _ _ _ _ _ Hs Hg) as [Hset Hsaved].
    apply list_find_Some in Hfind as (Hi & Hr & Hfirst).
    destruct (alter_at_found (set_path newPath) _ _ _ Hi) as (Hi' & Hother & Hlen).
    exists i, r, (alter (set_path newPath) i (files s)).
    split_and!; try done.
    intros Huniq Hne. apply Forall_lookup. intros j y Hj.
    destruct (decide (j = i)) as [->|Hji].
    + rewrite Hi' in Hj. by injection Hj as <-.
    + rewrite Hother in Hj by done. intros Hy. by apply Hji, (Huniq j y).
  - intros Hnone. apply handleFileRename_absent.
    destruct (snapshot (plugin_settings w)) as [s|] eqn:Hs.
    + rewrite (getSnapshotFile_path _ _ s) by done.
      by apply list_find_None, Hnone.
    + by apply getSnapshotFile_None.
Qed.

Lemma handleFileDelete_found f w s i r :
  snapshot (plugin_settings w) = Some s ->
  getSnapshotFile h (plugin_settings w) (Some (tfile_path f)) = Some (i, r) ->
  let w' := exec (handleFileDelete h (AFile f)) w in
  plugin_settings w' =
    {| snapshot := Some {| files := alter (set_status deleted) i (files s);
                           createdAt := createdAt s |};
       settings := settings (plugin_settings w) |}
  /\ saved w' = saved w ++ [plugin_settings w'].
Proof.
  intros Hs Hg. cbn zeta. unfold handleFileDelete.
  rewrite !exec_bind, value_of_gets, exec_gets, Hs. cbn [abstract_path].
  rewrite Hg, !exec_bind.
  unfold saveSettings. rewrite exec_modify. cbn [plugin_settings saved].
  rewrite StatusBar_update_settings, StatusBar_update_saved.
  rewrite assign_settings_settings.
  by rewrite (update_files_Some _ _ s).
Qed.

Lemma handleFileDelete_absent file w :
  getSnapshotFile h (plugin_settings w) (Some (abstract_path file)) = None ->
  exec (handleFileDelete h file) w = w.
Proof.
  intros Hg. unfold handleFileDelete.
  rewrite !exec_bind, value_of_gets, exec_gets.
  destruct file, (snapshot (plugin_settings w)); try done.
  by rewrite Hg.
Qed.

(** C3 (amended). A delete notification for a file of non-empty path [p]:
    without a snapshot nothing changes; when a record has path [p], the first
    such record gets status [deleted] and stays in its place with its path,
    every other record and the creation date stay, and the ledger is saved;
    when no record has path [p], nothing changes. A notification for a folder
    changes nothing. *)
Theorem handleFileDelete_spec f w :
  tfile_path f ≠ "" ->
  let p := tfile_path f in
  let w' := exec (handleFileDelete h (AFile f)) w in
  (snapshot (plugin_settings w) = None -> w' = w)
  /\ (forall s, snapshot (plugin_settings w) = Some s ->
      Exists (fun x => path x = p) (files s) ->
      exists i r files',
        files s !! i = Some r /\ path r = p
        /\ (forall j y, files s !! j = Some y -> j < i -> path y ≠ p)
        /\ plugin_settings w' =
             {| snapshot := Some {| files := files'; createdAt := createdAt s |};
                settings := settings (plugin_settings w) |}
        /\ files' !! i = Some {| path := p; status := deleted |}
        /\ (forall j, j ≠ i -> files' !! j = files s !! j)
        /\ length files' = length (files s)
        /\ saved w' = saved w ++ [plugin_settings w'])
  /\ (forall s, snapshot (plugin_settings w) = Some s ->
      Forall (fun x => path x ≠ p) (files s) -> w' = w)
  /\ (forall folder_path,
      exec (handleFileDelete h (AFolder folder_path)) w = w).
Proof.
  intros Hp p w'. split_and!; [| | |done].
  - intros Hs. apply handleFileDelete_absent. by apply getSnapshotFile_None.
  - intros s Hs Hex.
    destruct (list_find_Exists _ _ Hex) as (i & r & Hfind).
    assert (Hg : getSnapshotFile h (plugin_settings w) (Some p) = Some (i, r))
      by by rewrite (getSnapshotFile_path _ _ s).
    destruct (handleFileDelete_found f _ _ _ _ Hs Hg) as [Hset Hsaved].
    apply list_find_Some in Hfind as (Hi & Hr & Hfirst).
    destruct (alter_at_found (set_status deleted) _ _ _ Hi) as (Hi' & Hother & Hlen).
    exists i, r, (alter (set_status deleted) i (files s)).
    split_and!; try done.
    rewrite Hi'. unfold set_status. by rewrite Hr.
  - intros s Hs Hnone. apply handleFileDelete_absent. cbn [abstract_path].
    rewrite (getSnapshotFile_path _ _ s) by done.
    by apply list_find_None.
Qed.

End Reconciliation.

(** ** The status of a path *)

Lemma NoDup_path_lookup (l : list File) i j x y :
  NoDup (path <$> l) -> l !! i = Some x -> l !! j = Some y -> path x = path y ->
  i = j.
Proof.
  intros Hnd Hi Hj Hxy. eapply NoDup_lookup; [done| |].
  - by rewrite list_lookup_fmap, Hi.
  - by rewrite list_lookup_fmap, Hj, Hxy.
Qed.

Section Resolver.

Variable h : Host.

(** C7 (amended). For a non-empty path [p] and a snapshot: [file_status]
    returns the stored status of the record whose path is exactly [p] (the
    first one, which is the only one when paths are pairwise distinct), and
    [new] when no record has path [p]. [getActiveFileStatus] is [file_status]
    at the path of the active file when that is a Markdown file, and is
    undefined otherwise. Reading the status changes nothing: neither on its
    own nor when the status bar reads it. *)
Theorem file_status_spec vs s p :
  p ≠ "" ->
  snapshot vs = Some s ->
  (Exists (fun x => path x = p) (files s) ->
     exists i r,
       files s !! i = Some r /\ path r = p
       /\ (forall j y, files s !! j = Some y -> j < i -> path y ≠ p)
       /\ file_status h vs p = stored (status r))
  /\ (NoDup (path <$> files s) ->
      forall r, r ∈ files s -> path r = p -> file_status h vs p = stored (status r))
  /\ (Forall (fun x => path x ≠ p) (files s) -> file_status h vs p = new)
  /\ (forall activeFile, getActiveFile h = Some activeFile ->
      tfile_path activeFile = p ->
      getActiveFileStatus h vs = Some (file_status h vs p))
  /\ (getActiveFile h = None -> getActiveFileStatus h vs = None)
  /\ (forall w,
      exec (gets (fun w => getActiveFileStatus h (plugin_settings w))) w = w
      /\ plugin_settings (exec (StatusBar_update h) w) = plugin_settings w).
Proof.
  intros Hp Hs.
  assert (Hfirst : Exists (fun x => path x = p) (files s) ->
     exists i r, files s !! i = Some r /\ path r = p
       /\ (forall j y, files s !! j = Some y -> j < i -> path y ≠ p)
       /\ file_status h vs p = stored (status r)).
  { intros Hex. destruct (list_find_Exists _ _ Hex) as (i & r & Hfind).
    exists i, r. unfold file_status. rewrite (getSnapshotFile_path _ _ s) by done.
    rewrite Hfind. by apply list_find_Some in Hfind as (? & ? & ?). }
  split_and!.
  - done.
  - intros Hnd r Hr Hrp.
    destruct Hfirst as (i & r' & Hi & Hr' & _ & ->).
    { apply Exists_exists. eauto. }
    apply list_elem_of_lookup in Hr as [j Hj].
    assert (j = i) as -> by (eapply NoDup_path_lookup; [done..|congruence]).
    congruence.
  - intros Hnone. unfold file_status.
    rewrite (getSnapshotFile_path _ _ s) by done.
    assert (list_find (fun f => path f = p) (files s) = None) as ->
      by by apply list_find_None.
    done.
  - intros activeFile Ha <-. unfold getActiveFileStatus. by rewrite Ha.
  - intros Ha. unfold getActiveFileStatus. by rewrite Ha.
  - intros w. split; [done|]. apply StatusBar_update_settings.
Qed.

End Resolver.

(** ** Picking a file to review *)

(** What is rounded to is at most half a unit of the last place away, and a
    unit is [2 ^ s]. *)
Lemma round_nearest_even_spec x q s :
  (0 <= x)%Z ->
  round_nearest_even x = (q, s) ->
  (0 <= s /\ 0 <= q
   /\ (s = 0 -> q = x)
   /\ (0 < s ->
       2 ^ (s + 52) <= x
       /\ 2 * q * 2 ^ s <= 2 * x + 2 ^ s
       /\ 2 * x <= 2 * q * 2 ^ s + 2 ^ s))%Z.
Proof.
  intros Hnat. unfold round_nearest_even. cbn zeta.
  destruct (Z.leb_spec (Z.log2 x + 1 - 53) 0) as [Hs|Hs].
  { intros [= <- <-]. split_and!; [lia|done|done|lia]. }
  set (s0 := (Z.log2 x + 1 - 53)%Z) in *.
  assert (Hx : (0 < x)%Z).
  { destruct (Z.lt_ge_cases 0 x) as [?|Hneg]; [done|].
    unfold s0 in Hs. rewrite Z.log2_nonpos in Hs by done. lia. }
  destruct (Z.log2_spec x Hx) as [Hlow Hhigh].
  assert (Hunit : (2 ^ s0 = 2 * 2 ^ (s0 - 1))%Z).
  { rewrite <- Z.pow_succ_r by lia. f_equal. lia. }
  assert (Hhalf : Z.shiftl 1 (s0 - 1) = (2 ^ (s0 - 1))%Z).
  { rewrite Z.shiftl_mul_pow2 by lia. lia. }
  assert (Hpos : (0 < 2 ^ (s0 - 1))%Z) by (apply Z.pow_pos_nonneg; lia).
  assert (Hdiv : (x = 2 ^ s0 * Z.shiftr x s0 + Z.land x (Z.ones s0))%Z).
  { rewrite Z.shiftr_div_pow2, Z.land_ones by lia. apply Z.div_mod. lia. }
  assert (Hrest : (0 <= Z.land x (Z.ones s0) < 2 ^ s0)%Z).
  { rewrite Z.land_ones by lia. apply Z.mod_pos_bound. lia. }
  assert (Hq : (0 <= Z.shiftr x s0)%Z) by (apply Z.shiftr_nonneg; lia).
  assert (Hlog : (2 ^ (s0 + 52) <= x)%Z).
  { replace (s0 + 52)%Z with (Z.log2 x) by (unfold s0; lia). done. }
  rewrite Hhalf.
  set (q0 := Z.shiftr x s0) in *. set (rest := Z.land x (Z.ones s0)) in *.
  set (half := (2 ^ (s0 - 1))%Z) in *.
  destruct (Z.ltb_spec half rest) as [Hup|Hdown]; cbn [orb].
  { intros [= <- <-]. split_and!; [lia|lia|lia|]. intros _. split_and!; nia. }
  destruct (Z.eqb_spec rest half) as [Htie|Hne]; cbn [andb].
  - destruct (Z.odd q0); intros [= <- <-];
      (split_and!; [lia|lia|lia|]; intros _; split_and!; nia).
  - intros [= <- <-]. split_and!; [lia|lia|lia|]. intros _. split_and!; nia.
Qed.

(** The index that [Math.floor(Math.random() * n)] gives is an index of an
    array of length [n]: the product is rounded, but never up to [n]. *)
Lemma Math_floor_mul_lt r n : 0 < n -> Math_floor_mul r n < n.
Proof.
  intros Hn. unfold Math_floor_mul.
  destruct r as [m e Hok]. cbn [rnd_mant rnd_exp].
  unfold in_unit_interval in Hok.
  repeat (apply andb_prop in Hok as [Hok ?]).
  assert (Hm : (0 <= m < 2 ^ 53)%Z) by lia.
  assert (He : (0 <= e)%Z) by lia.
  assert (Hme : (m < 2 ^ e)%Z) by lia.
  destruct (round_nearest_even (m * Z.of_nat n)) as [q s] eqn:Hround.
  assert (Hnat : (0 <= m * Z.of_nat n)%Z) by nia.
  destruct (round_nearest_even_spec _ _ _ Hnat Hround)
    as (Hs & Hq & Hexact & Hrounded).
  assert (Hbelow : (q * 2 ^ s < Z.of_nat n * 2 ^ e)%Z).
  { destruct (Z.eq_dec s 0%Z) as [->|Hs0].
    - rewrite (Hexact eq_refl). change (2 ^ 0)%Z with 1%Z. nia.
    - destruct Hrounded as (Hlog & Hup & _); [lia|].
      assert (Hunit : (2 ^ s = 2 * 2 ^ (s - 1))%Z).
      { rewrite <- Z.pow_succ_r by lia. f_equal. lia. }
      assert (Hsplit : (2 ^ (s + 52) = 2 ^ (s - 1) * 2 ^ 53)%Z).
      { rewrite <- Z.pow_add_r by lia. f_equal. lia. }
      assert (Hpos : (0 < 2 ^ (s - 1))%Z) by (apply Z.pow_pos_nonneg; lia).
      assert (Hhalf : (2 ^ (s - 1) < Z.of_nat n)%Z) by nia.
      nia. }
  apply Nat2Z.inj_lt. rewrite Z2Nat.id by (apply Z.shiftl_nonneg; lia).
  destruct (Z.le_gt_cases e s) as [Hes|Hes].
  - rewrite Z.shiftl_mul_pow2 by lia.
    assert (Hsplit : (2 ^ s = 2 ^ (s - e) * 2 ^ e)%Z).
    { rewrite <- Z.pow_add_r by lia. f_equal. lia. }
    assert (Hpos : (0 < 2 ^ e)%Z) by (apply Z.pow_pos_nonneg; lia).
    nia.
  - rewrite Z.shiftl_div_pow2 by lia.
    assert (Hsplit : (2 ^ e = 2 ^ (- (s - e)) * 2 ^ s)%Z).
    { rewrite <- Z.pow_add_r by lia. f_equal. lia. }
    assert (Hpos : (0 < 2 ^ (- (s - e)))%Z) by (apply Z.pow_pos_nonneg; lia).
    apply Z.div_lt_upper_bound; [done|]. nia.
Qed.

Section Selection.

Variable h : Host.

Lemma random_index_lt n : 0 < n -> random_index h n < n.
Proof. apply Math_floor_mul_lt. Qed.

Lemma getToReviewFiles_elem vs s f :
  snapshot vs = Some s ->
  f ∈ getToReviewFiles vs <-> f ∈ files s /\ status f = to_review.
Proof.
  intros Hs. unfold getToReviewFiles. rewrite Hs, list_elem_of_filter. tauto.
Qed.

Lemma getToReviewFiles_nil vs s :
  snapshot vs = Some s ->
  getToReviewFiles vs = [] <-> Forall (fun f => status f ≠ to_review) (files s).
Proof.
  intros Hs. unfold getToReviewFiles. rewrite Hs. split.
  - intros Hnil. apply Forall_forall. intros f Hf Hst.
    exact (filter_nil_not_elem_of _ _ f Hnil Hst Hf).
  - intros Hall. induction Hall as [|f l Hf _ IH]; [done|].
    rewrite filter_cons_False by done. apply IH.
Qed.

(** C6. With a snapshot, [openRandomFile] hands to [focusFile] only a record
    of the snapshot whose status is [to_review] at that time, the one that
    the random index selects among the records to review; when no record is
    to review it opens nothing and changes nothing but for the notice "All
    files are reviewed". *)
Theorem openRandomFile_spec w s :
  snapshot (plugin_settings w) = Some s ->
  (Forall (fun f => status f ≠ to_review) (files s) ->
     exec (openRandomFile h) w = exec (Notice "All files are reviewed") w
     /\ plugin_settings (exec (openRandomFile h) w) = plugin_settings w
     /\ opened (exec (openRandomFile h) w) = opened w
     /\ notices (exec (openRandomFile h) w) = notices w ++ ["All files are reviewed"])
  /\ (Exists (fun f => status f = to_review) (files s) ->
      exists f,
        f ∈ files s /\ status f = to_review
        /\ getToReviewFiles (plugin_settings w)
             !! random_index h (length (getToReviewFiles (plugin_settings w)))
           = Some f
        /\ exec (openRandomFile h) w = exec (focusFile h f false) w).
Proof.
  intros Hs.
  assert (Hrun : exec (openRandomFile h) w =
    let files := getToReviewFiles (plugin_settings w) in
    if bool_decide (length files = 0)
    then exec (Notice "All files are reviewed") w
    else match files !! random_index h (length files) with
         | Some randomFile => exec (focusFile h randomFile false) w
         | None => w
         end).
  { unfold openRandomFile. rewrite exec_bind, value_of_gets, exec_gets, Hs.
    cbn zeta. case_bool_decide; [done|]. by destruct (_ !! _). }
  cbn zeta in Hrun. split.
  - intros Hnone%(getToReviewFiles_nil _ _ Hs).
    rewrite Hnone in Hrun. by rewrite Hrun.
  - intros (f0 & Hf0 & Hst0)%Exists_exists.
    assert (Hin0 : f0 ∈ getToReviewFiles (plugin_settings w))
      by by apply (getToReviewFiles_elem _ s).
    assert (Hlen : 0 < length (getToReviewFiles (plugin_settings w))).
    { destruct (getToReviewFiles (plugin_settings w)); [by inversion Hin0|cbn; lia]. }
    destruct (lookup_lt_is_Some_2 _ _ (random_index_lt _ Hlen)) as [f Hf].
    rewrite Hf, bool_decide_eq_false_2 in Hrun by lia.
    exists f. split_and!; [| |done..].
    all: apply list_elem_of_lookup_2, (getToReviewFiles_elem _ s) in Hf; tauto.
Qed.

(** C8. [focusFile] for a record of the snapshot: when the vault has no file
    at the record's path, every record with that path leaves the snapshot and
    the other records stay as they are and in their order, the notice "Cannot
    find a file ..." is shown, and the ledger is then saved; when the vault
    has the file, it is opened and the ledger stays as it is. *)
Theorem focusFile_spec file newLeaf w s :
  snapshot (plugin_settings w) = Some s ->
  let w' := exec (focusFile h file newLeaf) w in
  (vault_getFileByPath h (path file) = None ->
     plugin_settings w' =
       {| snapshot :=
            Some {| files := filter (fun fp => path fp ≠ path file) (files s);
                    createdAt := createdAt s |};
          settings := settings (plugin_settings w) |}
     /\ (forall f, f ∈ from_option files [] (snapshot (plugin_settings w')) <->
                   f ∈ files s /\ path f ≠ path file)
     /\ notices w' = notices w ++ ["Cannot find a file " +:+ path file]
     /\ saved w' = saved w ++ [plugin_settings w']
     /\ opened w' = opened w)
  /\ (forall targetFile, vault_getFileByPath h (path file) = Some targetFile ->
      plugin_settings w' = plugin_settings w
      /\ opened w' = opened w ++ [targetFile]
      /\ notices w' = notices w
      /\ saved w' = saved w).
Proof.
  intros Hs w'. subst w'. unfold focusFile. split.
  - intros ->.
    rewrite !exec_bind, value_of_gets, exec_gets.
    change (plugin_settings (exec (Notice ?m) w)) with (plugin_settings w).
    rewrite Hs, !exec_bind.
    unfold saveSettings. rewrite exec_modify.
    cbn [plugin_settings notices saved opened].
    rewrite StatusBar_update_settings, StatusBar_update_notices,
      StatusBar_update_saved, StatusBar_update_opened.
    rewrite assign_settings_settings, Notice_settings.
    rewrite (update_files_Some _ _ s) by done.
    split_and!; try done.
    intros f. cbn. rewrite list_elem_of_filter. tauto.
  - by intros targetFile ->.
Qed.

End Selection.

(** ** The buttons of the settings tab *)

Section SettingTab.

Variable h : Host.

Lemma in_snapshot_spec vs s file :
  snapshot vs = Some s ->
  in_snapshot vs file <-> tfile_path file ∈ path <$> files s.
Proof.
  intros Hs. unfold in_snapshot. rewrite Hs, bool_decide_spec.
  rewrite Exists_exists, list_elem_of_fmap. split.
  - intros (f & Hf & Hp). by exists f.
  - intros (f & Hp & Hf). by exists f.
Qed.

(** The ledger after a click on "Add all new files to snapshot". *)
Lemma addNewFiles_settings w :
  plugin_settings (exec (addNewFiles h) w) =
    update_files
      (fun fs => fs ++
         ((fun file => toFile (OfTFile file) to_review) <$>
          filter (fun file => ¬ in_snapshot (plugin_settings w) file)
                 (vault_getMarkdownFiles h)))
      (plugin_settings w).
Proof.
  unfold addNewFiles. rewrite !exec_bind, value_of_gets, exec_gets.
  by rewrite saveSettings_settings, display_settings, StatusBar_update_settings.
Qed.

(** C5. With a snapshot, "Add all new files to snapshot" appends to the
    records, in the order of the vault, a [to_review] record for each Markdown
    file whose path has no record, and for no other path; the records that
    were there stay as they are, and so do the creation date and the settings.
    Clicked again on the same vault contents, it leaves the ledger as it is. *)
Theorem addNewFiles_spec w s :
  snapshot (plugin_settings w) = Some s ->
  let w1 := exec (addNewFiles h) w in
  let added :=
    (fun file => {| path := tfile_path file; status := to_review |}) <$>
    filter (fun file => tfile_path file ∉ path <$> files s)
           (vault_getMarkdownFiles h) in
  plugin_settings w1 =
    {| snapshot := Some {| files := files s ++ added; createdAt := createdAt s |};
       settings := settings (plugin_settings w) |}
  /\ (forall r, r ∈ added <->
        status r = to_review
        /\ path r ∈ tfile_path <$> vault_getMarkdownFiles h
        /\ path r ∉ path <$> files s)
  /\ (forall i r, files s !! i = Some r ->
        from_option files [] (snapshot (plugin_settings w1)) !! i = Some r)
  /\ plugin_settings (exec (addNewFiles h) w1) = plugin_settings w1.
Proof.
  intros Hs w1 added.
  assert (H1 : plugin_settings w1 =
    {| snapshot := Some {| files := files s ++ added; createdAt := createdAt s |};
       settings := settings (plugin_settings w) |}).
  { unfold w1. rewrite addNewFiles_settings, (update_files_Some _ _ s) by done.
    do 4 f_equal. unfold added.
    apply (f_equal (fmap _)), list_filter_iff. intros file. by rewrite (in_snapshot_spec _ s). }
  assert (Hadded : forall r, r ∈ added <->
        status r = to_review
        /\ path r ∈ tfile_path <$> vault_getMarkdownFiles h
        /\ path r ∉ path <$> files s).
  { intros r. unfold added. rewrite list_elem_of_fmap. split.
    - intros (file & -> & [Hnew Hfile]%list_elem_of_filter). cbn.
      split_and!; [done| |done]. by apply list_elem_of_fmap_2.
    - intros (Hst & (file & Hp & Hfile)%list_elem_of_fmap & Hnew).
      exists file. split.
      + destruct r as [p st]. cbn in *. by subst.
      + apply list_elem_of_filter. split; [|done]. by rewrite <-Hp. }
  split_and!; [done..| |].
  - intros i r Hi. rewrite H1. cbn. by apply lookup_app_l_Some.
  - rewrite addNewFiles_settings.
    assert (Hnil : forall (l : list TFile),
      Forall (fun file => tfile_path file ∈ tfile_path <$> vault_getMarkdownFiles h) l ->
      filter (fun file => ¬ in_snapshot (plugin_settings w1) file) l = []).
    { intros l Hl. induction Hl as [|file l Hfile _ IH]; [done|].
      rewrite filter_cons_False; [done|]. intros Hnot. apply Hnot.
      apply (in_snapshot_spec _ {| files := files s ++ added;
                                   createdAt := createdAt s |}).
      { by rewrite H1. }
      cbn. rewrite fmap_app, elem_of_app.
      destruct (decide (tfile_path file ∈ path <$> files s)) as [|Hnew]; [by left|].
      right. apply list_elem_of_fmap.
      exists {| path := tfile_path file; status := to_review |}.
      split; [done|]. by apply Hadded. }
    rewrite Hnil.
    + rewrite H1. erewrite update_files_Some by done. cbn.
      by rewrite app_nil_r.
    + apply Forall_forall. intros file Hfile. by apply list_elem_of_fmap_2.
Qed.

(** The ledger after a click on "Create snapshot". *)
Lemma createSnapshot_settings w :
  plugin_settings (exec (createSnapshot h) w) =
    {| snapshot :=
         Some {| files := (fun file => {| path := tfile_path file;
                                          status := to_review |})
                            <$> vault_getMarkdownFiles h;
                 createdAt := new_Date h |};
       settings := settings (plugin_settings w) |}.
Proof.
  unfold createSnapshot. rewrite !exec_bind.
  by rewrite saveSettings_settings, display_settings, StatusBar_update_settings.
Qed.

(** The "Create snapshot" button. A settings tab drawn while a snapshot
    exists does not have it: a click on it is not possible, and nothing
    changes. A tab drawn without a snapshot has it. Its handler leaves a
    snapshot that has, in the order of the vault, one [to_review] record for
    each Markdown file, with the path of that file, and the current time as
    its creation date; the settings stay. The handler looks at no snapshot
    before it assigns the new one. *)
Theorem createSnapshot_spec w :
  (is_Some (snapshot (plugin_settings w)) ->
     let w0 := exec display w in
     value_of (click h CreateSnapshotButton) w0 = false
     /\ exec (click h CreateSnapshotButton) w0 = w0
     /\ snapshot (plugin_settings w0) = snapshot (plugin_settings w))
  /\ (snapshot (plugin_settings w) = None ->
      let w0 := exec display w in
      value_of (click h CreateSnapshotButton) w0 = true
      /\ exec (click h CreateSnapshotButton) w0 = exec (createSnapshot h) w0)
  /\ (let w' := exec (createSnapshot h) w in
      let files' := (fun file => {| path := tfile_path file; status := to_review |})
                      <$> vault_getMarkdownFiles h in
      plugin_settings w' =
        {| snapshot := Some {| files := files'; createdAt := new_Date h |};
           settings := settings (plugin_settings w) |}
      /\ length files' = length (vault_getMarkdownFiles h)
      /\ (forall i file, vault_getMarkdownFiles h !! i = Some file ->
            files' !! i = Some {| path := tfile_path file; status := to_review |})
      /\ saved w' = saved w ++ [plugin_settings w']).
Proof.
  split_and!.
  - intros [s Hs] w0.
    assert (Hpanel : panel w0 = [DeleteSnapshotButton; AddAllNewFilesButton]).
    { unfold w0, display. by rewrite exec_modify, Hs. }
    split_and!; [| |unfold w0; by rewrite display_settings].
    all: unfold click, value_of, exec, bind, gets; by rewrite Hpanel.
  - intros Hs w0.
    assert (Hpanel : panel w0 = [CreateSnapshotButton]).
    { unfold w0, display. by rewrite exec_modify, Hs. }
    unfold click, value_of, exec, bind, gets. rewrite Hpanel. cbn.
    by destruct (createSnapshot h w0).
  - cbn zeta. split_and!.
    + apply createSnapshot_settings.
    + apply length_fmap.
    + intros i file Hi. by rewrite list_lookup_fmap, Hi.
    + unfold createSnapshot. rewrite !exec_bind.
      unfold saveSettings at 1 2. rewrite !exec_modify. cbn [saved plugin_settings].
      f_equal.
      assert (Hd : forall x, saved (exec display x) = saved x).
      { intros x. unfold display. rewrite exec_modify.
        by destruct (snapshot (plugin_settings x)). }
      by rewrite Hd, StatusBar_update_saved.
Qed.

End SettingTab.

(** ** Distinct paths

    Every handler but [handleFileRename] looks for a record at a path before
    it adds one there, and keeps I1; [handleFileRename] keeps it when the new
    path has no record yet. *)

Lemma distinct_update_files g vs :
  distinct_paths vs ->
  (forall s, snapshot vs = Some s -> NoDup (path <$> files s) ->
             NoDup (path <$> g (files s))) ->
  distinct_paths (update_files g vs).
Proof.
  unfold distinct_paths, update_files. intros Hd Hg.
  destruct (snapshot vs) as [s|] eqn:Hs; [|by rewrite Hs]. cbn. by apply Hg.
Qed.

Lemma fmap_path_alter g i (l : list File) :
  (forall y, path (g y) = path y) -> path <$> alter g i l = path <$> l.
Proof.
  intros Hg. rewrite (list_fmap_alter _ _ id).
  - by apply list_alter_id.
  - apply Forall_forall. intros y _. apply Hg.
Qed.

Lemma NoDup_path_snoc p (l : list File) x :
  NoDup (path <$> l) -> list_find (fun f => path f = p) l = None -> path x = p ->
  NoDup (path <$> l ++ [x]).
Proof.
  intros Hnd Hnone Hx. rewrite fmap_app. apply NoDup_app. split_and!; [done| |].
  - intros q (y & -> & Hy)%list_elem_of_fmap [Heq|[]%elem_of_nil]%elem_of_cons.
    rewrite list_find_None, Forall_forall in Hnone.
    apply (Hnone y Hy). congruence.
  - apply NoDup_singleton.
Qed.

Lemma NoDup_fmap_filter {A B} (f : A -> B) (P : A -> Prop)
    `{!forall x, Decision (P x)} (l : list A) :
  NoDup (f <$> l) -> NoDup (f <$> filter P l).
Proof.
  induction l as [|x l IH]; [done|]. rewrite fmap_cons, NoDup_cons.
  intros [Hx Hl]. rewrite filter_cons. case_decide; [|by apply IH].
  rewrite fmap_cons. apply NoDup_cons. split; [|by apply IH].
  intros (y & Hy & [_ Hin]%list_elem_of_filter)%list_elem_of_fmap.
  apply Hx, list_elem_of_fmap. eauto.
Qed.

Lemma NoDup_path_rename newPath i (l : list File) :
  NoDup (path <$> l) -> newPath ∉ path <$> l ->
  NoDup (path <$> alter (set_path newPath) i l).
Proof.
  intros Hnd Hnew. apply NoDup_alt. intros j k q.
  rewrite !list_lookup_fmap, !list_lookup_alter.
  assert (Hfresh : forall n y, l !! n = Some y -> path y ≠ newPath).
  { intros n y Hn <-. apply Hnew, list_elem_of_fmap.
    eauto using list_elem_of_lookup_2. }
  repeat case_decide; subst; try done.
  - destruct (l !! j) as [x|] eqn:Hj; [|done]. cbn. intros [= <-].
    destruct (l !! k) as [y|] eqn:Hk; [|done]. cbn. intros [= Hy].
    by destruct (Hfresh k y Hk).
  - destruct (l !! j) as [x|] eqn:Hj; [|done]. cbn. intros [= <-].
    destruct (l !! k) as [y|] eqn:Hk; [|done]. cbn. intros [= Hy].
    by destruct (Hfresh j x Hj).
  - intros Hj Hk. eapply NoDup_lookup; [done| |].
    + by rewrite list_lookup_fmap.
    + by rewrite list_lookup_fmap.
Qed.

Section Distinct.

Variable h : Host.

Lemma focusFile_settings file newLeaf w :
  plugin_settings (exec (focusFile h file newLeaf) w) =
    match vault_getFileByPath h (path file) with
    | Some _ => plugin_settings w
    | None =>
        update_files (filter (fun fp => path fp ≠ path file)) (plugin_settings w)
    end.
Proof.
  unfold focusFile. destruct (vault_getFileByPath _ _); [done|].
  rewrite !exec_bind, value_of_gets, exec_gets.
  change (plugin_settings (exec (Notice ?m) w)) with (plugin_settings w).
  destruct (snapshot (plugin_settings w)) as [s|] eqn:Hs.
  - rewrite !exec_bind, saveSettings_settings, StatusBar_update_settings.
    by rewrite assign_settings_settings, Notice_settings.
  - by rewrite update_files_None.
Qed.

Lemma focusFile_distinct file newLeaf w :
  distinct_paths (plugin_settings w) ->
  distinct_paths (plugin_settings (exec (focusFile h file newLeaf) w)).
Proof.
  intros Hd. rewrite focusFile_settings.
  destruct (vault_getFileByPath _ _); [done|].
  apply distinct_update_files; [done|]. intros s _ Hnd.
  by apply NoDup_fmap_filter.
Qed.

Lemma openRandomFile_distinct w :
  distinct_paths (plugin_settings w) ->
  distinct_paths (plugin_settings (exec (openRandomFile h) w)).
Proof.
  intros Hd. destruct (openRandomFile_settings h w) as [->|(f & _ & ->)]; [done|].
  by apply focusFile_distinct.
Qed.

(** The part of [completeReview] and of [unreviewFile] that writes the status
    [st]. *)
Lemma mark_distinct st activeFile vs :
  like_path activeFile ≠ "" ->
  distinct_paths vs ->
  distinct_paths
    match getSnapshotFile h vs (Some (like_path activeFile)) with
    | None => update_files (fun fs => fs ++ [toFile activeFile st]) vs
    | Some (i, _) => update_files (alter (set_status st) i) vs
    end.
Proof.
  intros Hp Hd. destruct (snapshot vs) as [s|] eqn:Hs.
  - rewrite (getSnapshotFile_path _ _ s) by done.
    destruct (list_find _ _) as [[i x]|] eqn:Hfind.
    + apply distinct_update_files; [done|]. intros s' _ Hnd.
      by rewrite fmap_path_alter.
    + apply distinct_update_files; [done|]. intros s' Hs' Hnd.
      assert (s' = s) as -> by congruence.
      by eapply NoDup_path_snoc.
  - rewrite getSnapshotFile_None by done. by rewrite update_files_None.
Qed.

Lemma completeReview_distinct file openNext w :
  (forall activeFile, file_or_active h file = Some activeFile ->
     like_path activeFile ≠ "") ->
  distinct_paths (plugin_settings w) ->
  distinct_paths (plugin_settings (exec (completeReview h file openNext) w)).
Proof.
  intros Hp Hd. unfold completeReview.
  destruct (file_or_active h file) as [activeFile|]; [|done].
  rewrite !exec_bind, value_of_gets, exec_gets, exec_when.
  rewrite saveSettings_settings, StatusBar_update_settings.
  set (w1 := exec _ w).
  assert (H1 : distinct_paths (plugin_settings w1)).
  { pose proof (mark_distinct reviewed activeFile _ (Hp _ eq_refl) Hd) as Hm.
    unfold w1. destruct (getSnapshotFile _ _ _) as [[i ?]|]; [done|].
    by rewrite exec_bind, assign_settings_settings. }
  destruct openNext; [|done]. by apply openRandomFile_distinct.
Qed.

Lemma unreviewFile_distinct file w :
  (forall activeFile, file_or_active h file = Some activeFile ->
     like_path activeFile ≠ "") ->
  distinct_paths (plugin_settings w) ->
  distinct_paths (plugin_settings (exec (unreviewFile h file) w)).
Proof.
  intros Hp Hd. rewrite unreviewFile_settings. cbn zeta.
  destruct (file_or_active h file) as [activeFile|]; [|done].
  by apply mark_distinct; [apply Hp|].
Qed.

Lemma handleFileDelete_distinct file w :
  distinct_paths (plugin_settings w) ->
  distinct_paths (plugin_settings (exec (handleFileDelete h file) w)).
Proof.
  intros Hd.
  destruct (getSnapshotFile h (plugin_settings w) (Some (abstract_path file)))
    as [[i r]|] eqn:Hg; [|by rewrite handleFileDelete_absent].
  destruct file as [f|]; [|done].
  destruct (snapshot (plugin_settings w)) as [s|] eqn:Hs;
    [|by rewrite getSnapshotFile_None in Hg].
  destruct (handleFileDelete_found h f w s i r Hs Hg) as [-> _].
  unfold distinct_paths in *. rewrite Hs in Hd. cbn.
  by rewrite fmap_path_alter.
Qed.

Lemma handleFileRename_distinct file oldPath w :
  keeps_distinct h (plugin_settings w) (OpRename file oldPath) ->
  distinct_paths (plugin_settings w) ->
  distinct_paths (plugin_settings (exec (handleFileRename h file oldPath) w)).
Proof.
  intros Hk Hd.
  destruct (getSnapshotFile h (plugin_settings w) (Some oldPath))
    as [[i r]|] eqn:Hg; [|by rewrite handleFileRename_absent].
  destruct file as [f|]; [|done].
  destruct (snapshot (plugin_settings w)) as [s|] eqn:Hs;
    [|by rewrite getSnapshotFile_None in Hg].
  destruct (handleFileRename_found h f oldPath w s i r Hs Hg) as [-> _].
  unfold distinct_paths in *. rewrite Hs in Hd. cbn.
  destruct Hk as [Hsame|Hfresh].
  - assert (Hr : path r = tfile_path f).
    { unfold getSnapshotFile in Hg. rewrite Hs in Hg. case_bool_decide; [done|].
      apply list_find_Some in Hg as (_ & -> & _). done. }
    assert (Hi : files s !! i = Some r).
    { unfold getSnapshotFile in Hg. rewrite Hs in Hg. case_bool_decide; [done|].
      by apply list_find_Some in Hg as (? & _ & _). }
    assert (alter (set_path (tfile_path f)) i (files s) = files s) as ->; [|done].
    apply list_eq. intros j. rewrite list_lookup_alter. case_decide; [|done].
    subst j. rewrite Hi. cbn. destruct r. cbn in *. by subst.
  - apply NoDup_path_rename; [done|]. by apply Hfresh.
Qed.

Lemma addNewFiles_distinct w :
  NoDup (tfile_path <$> vault_getMarkdownFiles h) ->
  distinct_paths (plugin_settings w) ->
  distinct_paths (plugin_settings (exec (addNewFiles h) w)).
Proof.
  intros Hv Hd. rewrite addNewFiles_settings.
  apply distinct_update_files; [done|]. intros s Hs Hnd.
  rewrite fmap_app. apply NoDup_app. split_and!; [done| |].
  - intros q Hq (r & -> & Hr)%list_elem_of_fmap.
    apply list_elem_of_fmap in Hr as (file & -> & [Hnew _]%list_elem_of_filter).
    by apply Hnew, (in_snapshot_spec _ s).
  - rewrite <-list_fmap_compose. by apply (NoDup_fmap_filter tfile_path).
Qed.

Lemma createSnapshot_distinct w :
  NoDup (tfile_path <$> vault_getMarkdownFiles h) ->
  distinct_paths (plugin_settings (exec (createSnapshot h) w)).
Proof.
  intros Hv. rewrite createSnapshot_settings. unfold distinct_paths. cbn.
  by rewrite <-list_fmap_compose.
Qed.

(** One operation keeps I1, under [keeps_distinct]. *)
Lemma run_op_distinct op w :
  keeps_distinct h (plugin_settings w) op ->
  distinct_paths (plugin_settings w) ->
  distinct_paths (plugin_settings (exec (run_op h op) w)).
Proof.
  destruct op; cbn [run_op]; intros Hk Hd.
  - by apply completeReview_distinct.
  - by apply unreviewFile_distinct.
  - by apply openRandomFile_distinct.
  - by apply handleFileRename_distinct.
  - by apply handleFileDelete_distinct.
  - by apply addNewFiles_distinct.
  - by apply createSnapshot_distinct.
Qed.

End Distinct.

(** X1. Any sequence of operations keeps I1 (no two records of the snapshot
    share a path), as long as each one is under [keeps_distinct] when it runs:
    files are marked under non-empty paths, files are renamed to paths that
    have no record, and the vault lists each Markdown file once. *)
Theorem run_ops_distinct ops w :
  all_keep_distinct ops w ->
  distinct_paths (plugin_settings w) ->
  distinct_paths (plugin_settings (run_ops ops w)).
Proof.
  revert w. induction ops as [|[h op] ops IH]; intros w; [done|].
  cbn. intros [Hk Hall] Hd. apply IH; [done|]. by apply run_op_distinct.
Qed.

(** ** The campaign

    Only the creation (and the deletion) of a snapshot changes whether there
    is a snapshot, and its creation date; the handlers of the records are
    built from steps that leave both, and the settings, as they are. *)

Lemma same_campaign_refl vs : same_campaign vs vs.
Proof. done. Qed.

Lemma same_campaign_trans vs1 vs2 vs3 :
  same_campaign vs1 vs2 -> same_campaign vs2 vs3 -> same_campaign vs1 vs3.
Proof. intros [H1 H1'] [H2 H2']. split; congruence. Qed.

Lemma within_bind {A B} (m : M A) (k : A -> M B) :
  within_campaign m -> (forall a, within_campaign (k a)) ->
  within_campaign (bind m k).
Proof.
  intros Hm Hk w. rewrite exec_bind.
  eapply same_campaign_trans; [apply Hm|apply Hk].
Qed.

Lemma within_ret {A} (a : A) : within_campaign (ret a).
Proof. intros w. apply same_campaign_refl. Qed.

Lemma within_gets {A} (f : World -> A) : within_campaign (gets f).
Proof. intros w. apply same_campaign_refl. Qed.

Lemma within_Notice msg : within_campaign (Notice msg).
Proof. intros w. apply same_campaign_refl. Qed.

Lemma within_openFile t : within_campaign (openFile t).
Proof. intros w. apply same_campaign_refl. Qed.

Lemma within_saveSettings : within_campaign saveSettings.
Proof. intros w. apply same_campaign_refl. Qed.

Lemma within_display : within_campaign display.
Proof. intros w. rewrite display_settings. apply same_campaign_refl. Qed.

Lemma within_StatusBar_update h : within_campaign (StatusBar_update h).
Proof. intros w. rewrite StatusBar_update_settings. apply same_campaign_refl. Qed.

Lemma within_update_files g : within_campaign (assign_settings (update_files g)).
Proof.
  intros w. rewrite assign_settings_settings. unfold update_files.
  destruct (snapshot (plugin_settings w)) as [s|] eqn:Hs; [|done].
  split; [|done]. by rewrite Hs.
Qed.

Lemma within_when b m : within_campaign m -> within_campaign (when b m).
Proof. intros Hm. destruct b; [done|apply within_ret]. Qed.

Create HintDb campaign.
#[local] Hint Resolve within_ret within_gets within_Notice within_openFile
  within_saveSettings within_display within_StatusBar_update within_update_files
  : campaign.

(** A handler built from such steps: its binds and its case distinctions are
    taken apart, and each step is found in the [campaign] hints. *)
Ltac within_campaign_steps :=
  repeat first
    [ solve [auto with campaign]
    | apply within_when
    | apply within_bind; [|intros ?]
    | match goal with
      | |- within_campaign (match ?x with _ => _ end) => destruct x
      | |- within_campaign (if ?b then _ else _) => destruct b
      | |- within_campaign (let _ := _ in _) => cbv zeta
      end ].

Section Campaign.

Variable h : Host.

Lemma within_focusFile file newLeaf : within_campaign (focusFile h file newLeaf).
Proof. unfold focusFile. within_campaign_steps. Qed.

#[local] Hint Resolve within_focusFile : campaign.

Lemma within_openRandomFile : within_campaign (openRandomFile h).
Proof. unfold openRandomFile. within_campaign_steps. Qed.

#[local] Hint Resolve within_openRandomFile : campaign.

Lemma within_completeReview file openNext :
  within_campaign (completeReview h file openNext).
Proof. unfold completeReview. within_campaign_steps. Qed.

Lemma within_unreviewFile file : within_campaign (unreviewFile h file).
Proof. unfold unreviewFile. within_campaign_steps. Qed.

Lemma within_handleFileRename file oldPath :
  within_campaign (handleFileRename h file oldPath).
Proof. unfold handleFileRename. within_campaign_steps. Qed.

Lemma within_handleFileDelete file : within_campaign (handleFileDelete h file).
Proof. unfold handleFileDelete. within_campaign_steps. Qed.

Lemma within_addNewFiles : within_campaign (addNewFiles h).
Proof. unfold addNewFiles. within_campaign_steps. Qed.

(** X2. Every operation on the records (review, unreview, opening a random
    file with its eviction, rename, delete, adding the new files) leaves the
    campaign as it is: it neither creates nor removes the snapshot, keeps its
    creation date, and keeps the settings. *)
Theorem run_op_same_campaign op w :
  op ≠ OpCreateSnapshot ->
  same_campaign (plugin_settings w) (plugin_settings (exec (run_op h op) w)).
Proof.
  intros Hop. destruct op; cbn [run_op]; try done.
  - apply within_completeReview.
  - apply within_unreviewFile.
  - apply within_openRandomFile.
  - apply within_handleFileRename.
  - apply within_handleFileDelete.
  - apply within_addNewFiles.
Qed.

End Campaign.

(** * Worked examples *)

(** ** Review and unreview *)

(** Without a snapshot, marking the active file changes nothing, with both
    notices shown. *)
Lemma review_without_snapshot_witness :
  let h := vault_host (Some (md "a.md")) [md "a.md"] None in
  let w := world_of DEFAULT_SETTINGS in
  snapshot (plugin_settings w) = None
  /\ (plugin_settings (exec (completeReview h None true) w) = plugin_settings w
      /\ plugin_settings (exec (unreviewFile h None) w) = plugin_settings w
      /\ (is_Some (file_or_active h None) ->
          "File was added to snapshot and marked as reviewed"
            ∈ notices (exec (completeReview h None true) w)
          /\ "File was added to snapshot and marked as not reviewed"
            ∈ notices (exec (unreviewFile h None) w))).
Proof.
  split; [reflexivity|].
  apply (review_without_snapshot
           (vault_host (Some (md "a.md")) [md "a.md"] None) None true
           (world_of DEFAULT_SETTINGS)).
  reflexivity.
Defined.

(** Reviewing [a.md] twice, when it had no record. *)
Lemma completeReview_twice_witness :
  let h := vault_host (Some (md "a.md")) [md "a.md"] None in
  let w := world_of (ledger [{| path := "b.md"; status := to_review |}]) in
  let w1 := exec (completeReview h None false) w in
  (forall activeFile, file_or_active h None = Some activeFile ->
     like_path activeFile ≠ "")
  /\ plugin_settings (exec (completeReview h None false) w1) = plugin_settings w1
  /\ plugin_settings w1 =
       ledger [{| path := "b.md"; status := to_review |};
               {| path := "a.md"; status := reviewed |}].
Proof.
  cbv zeta.
  assert (Hpath : forall activeFile,
    file_or_active (vault_host (Some (md "a.md")) [md "a.md"] None) None
      = Some activeFile -> like_path activeFile ≠ "").
  { intros activeFile Ha. injection Ha as <-. discriminate. }
  split; [exact Hpath|]. split; [|reflexivity].
  exact (proj1 (completeReview_twice _ None _ Hpath)).
Defined.

(** C4, as stated, fails for the empty path: [getSnapshotFile] finds no record
    for it, so each review pushes one more record. *)
Lemma completeReview_twice_empty_path :
  let h := vault_host None [] None in
  let file := Some {| path := ""; status := to_review |} in
  let w := world_of (ledger []) in
  let w1 := exec (completeReview h file false) w in
  let w2 := exec (completeReview h file false) w1 in
  plugin_settings w1 = ledger [{| path := ""; status := reviewed |}]
  /\ plugin_settings w2 = ledger [{| path := ""; status := reviewed |};
                                  {| path := ""; status := reviewed |}]
  /\ plugin_settings w2 ≠ plugin_settings w1.
Proof. split_and!; [reflexivity..|discriminate]. Qed.

(** ** Reconciliation with the vault *)

(** [a.md], reviewed, is renamed to [b.md]. *)
Lemma handleFileRename_spec_witness :
  let h := vault_host None [md "b.md"] None in
  let w := world_of (ledger [{| path := "a.md"; status := reviewed |}]) in
  let w' := exec (handleFileRename h (AFile (md "b.md")) "a.md") w in
  "a.md" ≠ ""
  /\ plugin_settings w' = ledger [{| path := "b.md"; status := reviewed |}]
  /\ ((forall s, snapshot (plugin_settings w) = Some s ->
         Exists (fun x => path x = "a.md") (files s) ->
         exists i r files',
           files s !! i = Some r /\ path r = "a.md"
           /\ (forall j y, files s !! j = Some y -> j < i -> path y ≠ "a.md")
           /\ plugin_settings w' =
                {| snapshot := Some {| files := files'; createdAt := createdAt s |};
                   settings := settings (plugin_settings w) |}
           /\ files' !! i = Some {| path := "b.md"; status := status r |}
           /\ (forall j, j ≠ i -> files' !! j = files s !! j)
           /\ length files' = length (files s)
           /\ saved w' = saved w ++ [plugin_settings w']
           /\ ((forall j y, files s !! j = Some y -> path y = "a.md" -> j = i) ->
               "b.md" ≠ "a.md" ->
               Forall (fun x => path x ≠ "a.md") files'))
      /\ ((forall s, snapshot (plugin_settings w) = Some s ->
            Forall (fun x => path x ≠ "a.md") (files s)) ->
          w' = w)
      /\ (forall folder_path,
          exec (handleFileRename h (AFolder folder_path) "a.md") w = w)).
Proof.
  cbv zeta. split; [discriminate|]. split; [reflexivity|].
  apply (handleFileRename_spec (vault_host None [md "b.md"] None) (md "b.md") "a.md"
           (world_of (ledger [{| path := "a.md"; status := reviewed |}]))).
  discriminate.
Defined.

(** C2, as stated, fails in four ways. For the empty path [getSnapshotFile]
    finds nothing, and a notification for a folder is ignored: the record at
    the old path stays there. When two records have the old path only the
    first is renamed, and when the new path is the old one the record keeps
    it: a record at the old path remains. *)
Lemma handleFileRename_spec_fails :
  let h := vault_host None [] None in
  let files_after w := from_option files [] (snapshot (plugin_settings w)) in
  (let fs := [{| path := ""; status := reviewed |}] in
   let w' := exec (handleFileRename h (AFile (md "b.md")) "") (world_of (ledger fs)) in
   Exists (fun x => path x = "") fs
   /\ w' = world_of (ledger fs)
   /\ Forall (fun x => path x ≠ "b.md") (files_after w'))
  /\ (let fs := [{| path := "old.md"; status := reviewed |}] in
      let w' := exec (handleFileRename h (AFolder "new.md") "old.md")
                     (world_of (ledger fs)) in
      Exists (fun x => path x = "old.md") fs
      /\ w' = world_of (ledger fs)
      /\ Forall (fun x => path x ≠ "new.md") (files_after w'))
  /\ (let fs := [{| path := "a.md"; status := to_review |};
                 {| path := "a.md"; status := reviewed |}] in
      let w' := exec (handleFileRename h (AFile (md "b.md")) "a.md")
                     (world_of (ledger fs)) in
      plugin_settings w' = ledger [{| path := "b.md"; status := to_review |};
                                   {| path := "a.md"; status := reviewed |}]
      /\ Exists (fun x => path x = "a.md") (files_after w'))
  /\ (let fs := [{| path := "a.md"; status := reviewed |}] in
      let w' := exec (handleFileRename h (AFile (md "a.md")) "a.md")
                     (world_of (ledger fs)) in
      plugin_settings w' = ledger fs
      /\ Exists (fun x => path x = "a.md") (files_after w')).
Proof. cbv zeta. split_and!; try reflexivity; compute_done. Qed.

(** [a.md], to review, is deleted. *)
Lemma handleFileDelete_spec_witness :
  let h := vault_host None [] None in
  let f := md "a.md" in
  let w := world_of (ledger [{| path := "a.md"; status := to_review |}]) in
  let w' := exec (handleFileDelete h (AFile f)) w in
  tfile_path f ≠ ""
  /\ plugin_settings w' = ledger [{| path := "a.md"; status := deleted |}]
  /\ ((snapshot (plugin_settings w) = None -> w' = w)
      /\ (forall s, snapshot (plugin_settings w) = Some s ->
          Exists (fun x => path x = "a.md") (files s) ->
          exists i r files',
            files s !! i = Some r /\ path r = "a.md"
            /\ (forall j y, files s !! j = Some y -> j < i -> path y ≠ "a.md")
            /\ plugin_settings w' =
                 {| snapshot := Some {| files := files'; createdAt := createdAt s |};
                    settings := settings (plugin_settings w) |}
            /\ files' !! i = Some {| path := "a.md"; status := deleted |}
            /\ (forall j, j ≠ i -> files' !! j = files s !! j)
            /\ length files' = length (files s)
            /\ saved w' = saved w ++ [plugin_settings w'])
      /\ (forall s, snapshot (plugin_settings w) = Some s ->
          Forall (fun x => path x ≠ "a.md") (files s) -> w' = w)
      /\ (forall folder_path,
          exec (handleFileDelete h (AFolder folder_path)) w = w)).
Proof.
  cbv zeta. split; [discriminate|]. split; [reflexivity|].
  apply (handleFileDelete_spec (vault_host None [] None) (md "a.md")
           (world_of (ledger [{| path := "a.md"; status := to_review |}]))).
  discriminate.
Defined.

(** C3, as stated, fails for the empty path, for which [getSnapshotFile]
    finds nothing, and for a folder, which the handler ignores: the record at
    the path of the notification keeps its status. *)
Lemma handleFileDelete_spec_fails :
  let h := vault_host None [] None in
  let files_after w := from_option files [] (snapshot (plugin_settings w)) in
  (let fs := [{| path := ""; status := to_review |}] in
   let w' := exec (handleFileDelete h (AFile {| tfile_path := ""; extension := "md" |}))
                  (world_of (ledger fs)) in
   Exists (fun x => path x = "") fs
   /\ w' = world_of (ledger fs)
   /\ Forall (fun x => status x ≠ deleted) (files_after w'))
  /\ (let fs := [{| path := "a.md"; status := to_review |}] in
      let w' := exec (handleFileDelete h (AFolder "a.md")) (world_of (ledger fs)) in
      Exists (fun x => path x = "a.md") fs
      /\ w' = world_of (ledger fs)
      /\ Forall (fun x => status x ≠ deleted) (files_after w')).
Proof. cbv zeta. split_and!; try reflexivity; compute_done. Qed.

(** C1 fails on the code. From a snapshot with distinct paths, [a.md] is
    deleted and [b.md] is then renamed to [a.md]: the snapshot ends with two
    records of path [a.md]. So does a rename onto the path of any record. *)
Theorem handleFileRename_duplicates_path :
  let h := vault_host None [md "b.md"] None in
  let fs := [{| path := "a.md"; status := to_review |};
             {| path := "b.md"; status := to_review |}] in
  let w := world_of (ledger fs) in
  let w1 := exec (handleFileDelete h (AFile (md "a.md"))) w in
  let w2 := exec (handleFileRename h (AFile (md "a.md")) "b.md") w1 in
  NoDup (path <$> fs)
  /\ plugin_settings w1 = ledger [{| path := "a.md"; status := deleted |};
                                  {| path := "b.md"; status := to_review |}]
  /\ plugin_settings w2 = ledger [{| path := "a.md"; status := deleted |};
                                  {| path := "a.md"; status := to_review |}]
  /\ ~ NoDup (path <$> from_option files [] (snapshot (plugin_settings w2)))
  /\ plugin_settings (exec (handleFileRename h (AFile (md "b.md")) "a.md") w) =
       ledger [{| path := "b.md"; status := to_review |};
               {| path := "b.md"; status := to_review |}].
Proof.
  cbv zeta. split_and!; [|reflexivity..| |reflexivity].
  - compute_done.
  - compute_done.
Qed.

(** ** The status of a path *)

(** The status of a reviewed file, of a file without a record, and of the
    active file. *)
Lemma file_status_spec_witness :
  let h := vault_host (Some (md "a.md")) [md "a.md"; md "c.md"] None in
  let s := snapshot_of [{| path := "b.md"; status := to_review |};
                        {| path := "a.md"; status := reviewed |}] in
  let vs := ledger (files s) in
  ("a.md" ≠ "" /\ snapshot vs = Some s)
  /\ file_status h vs "a.md" = stored reviewed
  /\ file_status h vs "c.md" = new
  /\ getActiveFileStatus h vs = Some (stored reviewed)
  /\ (NoDup (path <$> files s) ->
      forall r, r ∈ files s -> path r = "a.md" ->
                file_status h vs "a.md" = stored (status r)).
Proof.
  cbv zeta. split; [split; [discriminate|reflexivity]|].
  split_and!; [reflexivity..|].
  apply (file_status_spec
           (vault_host (Some (md "a.md")) [md "a.md"; md "c.md"] None)
           (ledger [{| path := "b.md"; status := to_review |};
                    {| path := "a.md"; status := reviewed |}])
           (snapshot_of [{| path := "b.md"; status := to_review |};
                         {| path := "a.md"; status := reviewed |}])
           "a.md").
  - discriminate.
  - reflexivity.
Defined.

(** C7, as stated, fails for the empty path, whose record is not looked up:
    the status is [new] whatever the record says. It also fails for the path
    of an active file that is not a Markdown file (a tracked [a.md] renamed to
    [a.txt] keeps its record): [getActiveFileStatus] is then undefined. *)
Lemma file_status_spec_fails :
  (let h := vault_host (Some {| tfile_path := ""; extension := "md" |}) [] None in
   let fs := [{| path := ""; status := reviewed |}] in
   Exists (fun x => path x = "") fs
   /\ file_status h (ledger fs) "" = new
   /\ getActiveFileStatus h (ledger fs) = Some new)
  /\ (let a_txt := {| tfile_path := "a.txt"; extension := "txt" |} in
      let h := vault_host (Some a_txt) [a_txt] None in
      let w := world_of (ledger [{| path := "a.md"; status := reviewed |}]) in
      let w' := exec (handleFileRename h (AFile a_txt) "a.md") w in
      plugin_settings w' = ledger [{| path := "a.txt"; status := reviewed |}]
      /\ getActiveFileStatus h (plugin_settings w') = None).
Proof. cbv zeta. split_and!; try reflexivity; compute_done. Qed.

(** ** Picking a file to review *)

(** [x.md] is reviewed and [u.md], [y.md] and [z.md] are to review: with
    [Math.random() = 1/2] the index is 1 of 3, and it is [y.md] that is
    opened. *)
Lemma openRandomFile_spec_witness :
  let h := vault_host None [md "u.md"; md "x.md"; md "y.md"; md "z.md"] None in
  let s := snapshot_of [{| path := "u.md"; status := to_review |};
                        {| path := "x.md"; status := reviewed |};
                        {| path := "y.md"; status := to_review |};
                        {| path := "z.md"; status := to_review |}] in
  let w := world_of (ledger (files s)) in
  snapshot (plugin_settings w) = Some s
  /\ random_index h 3 = 1
  /\ opened (exec (openRandomFile h) w) = [md "y.md"]
  /\ ((Forall (fun f => status f ≠ to_review) (files s) ->
         exec (openRandomFile h) w = exec (Notice "All files are reviewed") w
         /\ plugin_settings (exec (openRandomFile h) w) = plugin_settings w
         /\ opened (exec (openRandomFile h) w) = opened w
         /\ notices (exec (openRandomFile h) w)
            = notices w ++ ["All files are reviewed"])
      /\ (Exists (fun f => status f = to_review) (files s) ->
          exists f,
            f ∈ files s /\ status f = to_review
            /\ getToReviewFiles (plugin_settings w)
                 !! random_index h (length (getToReviewFiles (plugin_settings w)))
               = Some f
            /\ exec (openRandomFile h) w = exec (focusFile h f false) w)).
Proof.
  cbv zeta. split; [reflexivity|]. split; [reflexivity|].
  split; [reflexivity|].
  apply (openRandomFile_spec
           (vault_host None [md "u.md"; md "x.md"; md "y.md"; md "z.md"] None)).
  reflexivity.
Defined.

(** The product of [Math.random()] and of the number of files is rounded
    before [Math.floor]: of nine files to review the one at index 4 is picked
    for a random number whose exact product with 9 is just below 4. *)
Example random_index_rounded :
  let r := {| rnd_mant := 2001599834386887; rnd_exp := 52; rnd_ok := eq_refl |} in
  let h := {| workspace_getActiveFile := None; vault_getMarkdownFiles := [];
              vault_getFileByPath := fun _ => None; new_Date := 0%Z;
              Math_random := r; loadData := None;
              confirm_delete := modal_cancel |} in
  random_index h 9 = 4
  /\ ((rnd_mant r * 9) `div` 2 ^ rnd_exp r = 3)%Z
  /\ (rnd_mant r * 9 = 2 ^ 54 - 1)%Z.
Proof. cbv zeta. by vm_compute. Qed.

(** [y.md] is picked but is no longer in the vault: its record goes. *)
Lemma focusFile_spec_witness :
  let h := vault_host None [md "x.md"] None in
  let file := {| path := "y.md"; status := to_review |} in
  let s := snapshot_of [{| path := "x.md"; status := reviewed |}; file] in
  let w := world_of (ledger (files s)) in
  let w' := exec (focusFile h file false) w in
  snapshot (plugin_settings w) = Some s
  /\ plugin_settings w' = ledger [{| path := "x.md"; status := reviewed |}]
  /\ ((vault_getFileByPath h (path file) = None ->
         plugin_settings w' =
           {| snapshot :=
                Some {| files := filter (fun fp => path fp ≠ path file) (files s);
                        createdAt := createdAt s |};
              settings := settings (plugin_settings w) |}
         /\ (forall f, f ∈ from_option files [] (snapshot (plugin_settings w')) <->
                       f ∈ files s /\ path f ≠ path file)
         /\ notices w' = notices w ++ ["Cannot find a file " +:+ path file]
         /\ saved w' = saved w ++ [plugin_settings w']
         /\ opened w' = opened w)
      /\ (forall targetFile,
          vault_getFileByPath h (path file) = Some targetFile ->
          plugin_settings w' = plugin_settings w
          /\ opened w' = opened w ++ [targetFile]
          /\ notices w' = notices w
          /\ saved w' = saved w)).
Proof.
  cbv zeta. split; [reflexivity|]. split; [reflexivity|].
  apply (focusFile_spec (vault_host None [md "x.md"] None)
           {| path := "y.md"; status := to_review |} false).
  reflexivity.
Defined.

(** ** The buttons of the settings tab *)

(** Of the vault's [x.md], [y.md] and [z.md], the last two are new. *)
Lemma addNewFiles_spec_witness :
  let h := vault_host None [md "x.md"; md "y.md"; md "z.md"] None in
  let s := snapshot_of [{| path := "x.md"; status := reviewed |};
                        {| path := "gone.md"; status := deleted |}] in
  let w := world_of (ledger (files s)) in
  let w1 := exec (addNewFiles h) w in
  let added :=
    (fun file => {| path := tfile_path file; status := to_review |}) <$>
    filter (fun file => tfile_path file ∉ path <$> files s)
           (vault_getMarkdownFiles h) in
  snapshot (plugin_settings w) = Some s
  /\ plugin_settings w1 = ledger [{| path := "x.md"; status := reviewed |};
                                  {| path := "gone.md"; status := deleted |};
                                  {| path := "y.md"; status := to_review |};
                                  {| path := "z.md"; status := to_review |}]
  /\ (plugin_settings w1 =
        {| snapshot := Some {| files := files s ++ added; createdAt := createdAt s |};
           settings := settings (plugin_settings w) |}
      /\ (forall r, r ∈ added <->
            status r = to_review
            /\ path r ∈ tfile_path <$> vault_getMarkdownFiles h
            /\ path r ∉ path <$> files s)
      /\ (forall i r, files s !! i = Some r ->
            from_option files [] (snapshot (plugin_settings w1)) !! i = Some r)
      /\ plugin_settings (exec (addNewFiles h) w1) = plugin_settings w1).
Proof.
  cbv zeta. split; [reflexivity|]. split; [reflexivity|].
  apply (addNewFiles_spec (vault_host None [md "x.md"; md "y.md"; md "z.md"] None)).
  reflexivity.
Defined.

(** C9 fails on the code. [display] offers "Create snapshot" only when it
    finds no snapshot, but the handler of the button does not look again: the
    tab is drawn without a snapshot, the settings are then loaded again with
    a stored snapshot ([onExternalSettingsChange] does not draw the tab), and
    the button, still there, replaces that snapshot, the review of [x.md]
    with it. *)
Lemma createSnapshot_replaces_snapshot :
  let stored_snapshot := snapshot_of [{| path := "x.md"; status := reviewed |}] in
  let h := vault_host None [md "x.md"; md "y.md"]
             (Some {| data_snapshot := Some stored_snapshot;
                      data_showStatusBar := None |}) in
  let w0 := exec display (world_of DEFAULT_SETTINGS) in
  let w1 := exec (onExternalSettingsChange h) w0 in
  let w2 := exec (click h CreateSnapshotButton) w1 in
  snapshot (plugin_settings w1) = Some stored_snapshot
  /\ value_of (click h CreateSnapshotButton) w1 = true
  /\ snapshot (plugin_settings w2) =
       Some {| files := [{| path := "x.md"; status := to_review |};
                         {| path := "y.md"; status := to_review |}];
               createdAt := new_Date h |}
  /\ snapshot (plugin_settings w2) ≠ snapshot (plugin_settings w1).
Proof. cbv zeta. split_and!; [reflexivity..|discriminate]. Qed.

(** ** Distinct paths *)

(** A snapshot is created, [x.md] is reviewed, [y.md] is renamed to [z.md],
    [x.md] is deleted, and a new [y.md] is added. *)
Lemma run_ops_distinct_witness :
  let h1 := vault_host (Some (md "x.md")) [md "x.md"; md "y.md"] None in
  let h2 := vault_host (Some (md "x.md")) [md "x.md"; md "z.md"] None in
  let h3 := vault_host None [md "z.md"; md "y.md"] None in
  let ops := [(h1, OpCreateSnapshot); (h1, OpReview None true);
              (h2, OpRename (AFile (md "z.md")) "y.md");
              (h3, OpDelete (AFile (md "x.md"))); (h3, OpAddNewFiles)] in
  let w := world_of DEFAULT_SETTINGS in
  all_keep_distinct ops w
  /\ distinct_paths (plugin_settings w)
  /\ files <$> snapshot (plugin_settings (run_ops ops w)) =
       Some [{| path := "x.md"; status := deleted |};
             {| path := "z.md"; status := to_review |};
             {| path := "y.md"; status := to_review |}]
  /\ distinct_paths (plugin_settings (run_ops ops w)).
Proof.
  cbv zeta.
  set (h1 := vault_host (Some (md "x.md")) [md "x.md"; md "y.md"] None).
  set (h2 := vault_host (Some (md "x.md")) [md "x.md"; md "z.md"] None).
  set (h3 := vault_host None [md "z.md"; md "y.md"] None).
  set (ops := [(h1, OpCreateSnapshot); (h1, OpReview None true);
               (h2, OpRename (AFile (md "z.md")) "y.md");
               (h3, OpDelete (AFile (md "x.md"))); (h3, OpAddNewFiles)]).
  assert (Hkeep : all_keep_distinct ops (world_of DEFAULT_SETTINGS)).
  { unfold ops. cbn [all_keep_distinct]. split_and!; try exact I.
    - compute_done.
    - intros activeFile [= <-]. discriminate.
    - right. intros s [= <-]. compute_done.
    - compute_done. }
  assert (Hd : distinct_paths (plugin_settings (world_of DEFAULT_SETTINGS)))
    by exact I.
  split_and!; [exact Hkeep|exact Hd|reflexivity|].
  exact (run_ops_distinct ops (world_of DEFAULT_SETTINGS) Hkeep Hd).
Defined.

(** ** The campaign *)

(** A review that evicts the record of a file gone from the vault keeps the
    creation date of the snapshot. *)
Lemma run_op_same_campaign_witness :
  let h := vault_host (Some (md "x.md")) [md "x.md"] None in
  let w := world_of (ledger [{| path := "x.md"; status := to_review |};
                             {| path := "y.md"; status := to_review |}]) in
  let w' := exec (run_op h (OpReview None true)) w in
  OpReview None true ≠ OpCreateSnapshot
  /\ plugin_settings w' = ledger [{| path := "x.md"; status := reviewed |}]
  /\ same_campaign (plugin_settings w) (plugin_settings w').
Proof.
  cbv zeta. split; [discriminate|]. split; [reflexivity|].
  apply (run_op_same_campaign
           (vault_host (Some (md "x.md")) [md "x.md"] None) (OpReview None true)).
  discriminate.
Defined.

(** ** A campaign from start to end *)

(** A snapshot is created from [x.md] and [y.md]; [x.md] is reviewed; the file
    opened at random is then [y.md]; [y.md] is deleted; nothing is left to
    review. *)
Example campaign_scenario :
  let h := vault_host (Some (md "x.md")) [md "x.md"; md "y.md"] None in
  let h' := vault_host (Some (md "x.md")) [md "x.md"] None in
  let w1 := exec (click h CreateSnapshotButton) (exec display (world_of DEFAULT_SETTINGS)) in
  let w2 := exec (completeReview h None false) w1 in
  let w3 := exec (openRandomFile h) w2 in
  let w4 := exec (handleFileDelete h' (AFile (md "y.md"))) w3 in
  let w5 := exec (openRandomFile h') w4 in
  files <$> snapshot (plugin_settings w1) =
    Some [{| path := "x.md"; status := to_review |};
          {| path := "y.md"; status := to_review |}]
  /\ files <$> snapshot (plugin_settings w2) =
       Some [{| path := "x.md"; status := reviewed |};
             {| path := "y.md"; status := to_review |}]
  /\ opened w3 = [md "y.md"]
  /\ files <$> snapshot (plugin_settings w4) =
       Some [{| path := "x.md"; status := reviewed |};
             {| path := "y.md"; status := deleted |}]
  /\ opened w5 = opened w4
  /\ notices w5 = ["All files are reviewed"].
Proof. cbv zeta. by split_and!. Qed.

(** * The rest of the plugin *)

(** ** Handlers and what depends on the settings *)

Section TrackingFacts.

Context {V : Type} (view : World -> V) (good : V -> Prop).

Lemma stays_bind {A B} (m : M A) (k : A -> M B) :
  stays view m -> (forall a, stays view (k a)) -> stays view (bind m k).
Proof.
  intros Hm Hk w. rewrite exec_bind. by rewrite Hk, Hm.
Qed.

Lemma ends_good_bind {A B} (m : M A) (k : A -> M B) :
  (forall a, ends_good view good (k a)) -> ends_good view good (bind m k).
Proof. intros Hk w. rewrite exec_bind. apply Hk. Qed.

Lemma ends_good_then_stays {A B} (m : M A) (k : A -> M B) :
  ends_good view good m -> (forall a, stays view (k a)) ->
  ends_good view good (bind m k).
Proof. intros Hm Hk w. rewrite exec_bind, Hk. apply Hm. Qed.

Lemma stays_or_ends_good_stays {A} (m : M A) :
  stays view m -> stays_or_ends_good view good m.
Proof. intros Hm w. left. apply Hm. Qed.

Lemma stays_or_ends_good_ends {A} (m : M A) :
  ends_good view good m -> stays_or_ends_good view good m.
Proof. intros Hm w. right. apply Hm. Qed.

Lemma stays_or_ends_good_bind {A B} (m : M A) (k : A -> M B) :
  stays_or_ends_good view good m ->
  (forall a, stays_or_ends_good view good (k a)) ->
  stays_or_ends_good view good (bind m k).
Proof.
  intros Hm Hk w. rewrite exec_bind.
  destruct (Hk (value_of m w) (exec m w)) as [Hk1|Hk2]; [|by right].
  rewrite Hk1. apply Hm.
Qed.

Lemma stays_or_ends_good_times n (m : M unit) :
  stays_or_ends_good view good m -> stays_or_ends_good view good (times n m).
Proof.
  intros Hm. induction n as [|n IH]; cbn [times].
  - intros w. by left.
  - by apply stays_or_ends_good_bind.
Qed.

(** Good views stay good. *)
Lemma stays_or_ends_good_inv {A} (m : M A) w :
  stays_or_ends_good view good m ->
  good (view w) -> good (view (exec m w)).
Proof. intros Hm Hw. by destruct (Hm w) as [->|?]. Qed.

End TrackingFacts.

(** The steps that the handlers are made of, for each view. *)

Lemma stays_ret {V} (view : World -> V) {A} (a : A) : stays view (ret a).
Proof. by intros w. Qed.

Lemma stays_gets {V} (view : World -> V) {A} (f : World -> A) :
  stays view (gets f).
Proof. by intros w. Qed.

Lemma data_stays_Notice msg : stays data_view (Notice msg).
Proof. by intros w. Qed.

Lemma data_stays_openFile t : stays data_view (openFile t).
Proof. by intros w. Qed.

Lemma data_stays_display : stays data_view display.
Proof.
  intros w. unfold display. rewrite exec_modify.
  by destruct (snapshot (plugin_settings w)).
Qed.

Lemma data_stays_StatusBar_update h : stays data_view (StatusBar_update h).
Proof. intros w. by destruct (StatusBar_update_frame h w) as [sb ->]. Qed.

Lemma data_good_saveSettings : ends_good data_view data_good saveSettings.
Proof. intros w. unfold data_good. cbn. apply last_snoc. Qed.

Lemma bar_stays_Notice msg : stays bar_view (Notice msg).
Proof. by intros w. Qed.

Lemma bar_stays_openFile t : stays bar_view (openFile t).
Proof. by intros w. Qed.

Lemma bar_stays_display : stays bar_view display.
Proof.
  intros w. unfold display. rewrite exec_modify.
  by destruct (snapshot (plugin_settings w)).
Qed.

Lemma bar_stays_saveSettings : stays bar_view saveSettings.
Proof. by intros w. Qed.

Lemma bar_good_StatusBar_update h :
  ends_good bar_view (bar_good h) (StatusBar_update h).
Proof.
  intros w. unfold bar_good, bar_view. cbn [fst snd].
  rewrite StatusBar_update_settings. unfold bar_agrees, StatusBar_update.
  rewrite exec_modify. cbn zeta.
  destruct (snapshot (plugin_settings w)) as [s|]; [|done].
  by destruct (getActiveFileStatus h (plugin_settings w)) as [[|[]]|].
Qed.

Lemma panel_stays_Notice msg : stays panel_view (Notice msg).
Proof. by intros w. Qed.

Lemma panel_stays_openFile t : stays panel_view (openFile t).
Proof. by intros w. Qed.

Lemma panel_stays_saveSettings : stays panel_view saveSettings.
Proof. by intros w. Qed.

Lemma panel_stays_StatusBar_update h : stays panel_view (StatusBar_update h).
Proof. intros w. by destruct (StatusBar_update_frame h w) as [sb ->]. Qed.

Lemma panel_stays_update_files g :
  stays panel_view (assign_settings (update_files g)).
Proof.
  intros w. unfold panel_view. rewrite assign_settings_settings.
  f_equal. unfold has_snapshot, update_files.
  by destruct (snapshot (plugin_settings w)) eqn:Hs; cbn; rewrite ?Hs.
Qed.

Lemma panel_good_display : ends_good panel_view panel_good display.
Proof.
  intros w. unfold panel_good, panel_view, has_snapshot, display.
  rewrite exec_modify.
  by destruct (snapshot (plugin_settings w)) as [s|] eqn:Hs; cbn; rewrite Hs.
Qed.

Create HintDb track.
#[local] Hint Resolve stays_ret stays_gets
  data_stays_Notice data_stays_openFile data_stays_display
  data_stays_StatusBar_update data_good_saveSettings
  bar_stays_Notice bar_stays_openFile bar_stays_display bar_stays_saveSettings
  bar_good_StatusBar_update
  panel_stays_Notice panel_stays_openFile panel_stays_saveSettings
  panel_stays_StatusBar_update panel_stays_update_files panel_good_display
  : track.

(** The three notions, each by the structure of the handler: its binds and
    case distinctions are taken apart, and the steps are found in the
    [track] hints. *)
Ltac stays_steps :=
  repeat first
    [ solve [auto with track]
    | apply stays_bind; [|intros ?]
    | match goal with
      | |- stays _ (match ?x with _ => _ end) => destruct x
      | |- stays _ (if ?b then _ else _) => destruct b
      end ].

Ltac ends_good_steps :=
  repeat first
    [ solve [auto with track]
    | apply ends_good_then_stays;
        [solve [auto with track]|intros ?; solve [stays_steps]]
    | apply ends_good_bind; intros ? ].

Ltac track_steps :=
  repeat first
    [ solve [auto with track]
    | solve [apply stays_or_ends_good_stays; stays_steps]
    | solve [apply stays_or_ends_good_ends; ends_good_steps]
    | apply stays_or_ends_good_bind; [|intros ?]
    | match goal with
      | |- stays_or_ends_good _ _ (match ?x with _ => _ end) => destruct x
      | |- stays_or_ends_good _ _ (if ?b then _ else _) => destruct b
      | |- stays_or_ends_good _ _ (let _ := _ in _) => cbv zeta
      | |- stays_or_ends_good _ _ (when ?b _) => destruct b; cbn [when]
      end ].

(** ** Saving what changes *)

Section DataFile.

Variable h : Host.

#[local] Abbreviation writes_through :=
  (stays_or_ends_good data_view data_good).

Lemma writes_through_focusFile file newLeaf :
  writes_through (focusFile h file newLeaf).
Proof. unfold focusFile. track_steps. Qed.

#[local] Hint Resolve writes_through_focusFile : track.

Lemma writes_through_openRandomFile : writes_through (openRandomFile h).
Proof. unfold openRandomFile. track_steps. Qed.

Lemma writes_through_completeReview file openNext :
  writes_through (completeReview h file openNext).
Proof. unfold completeReview. track_steps. Qed.

Lemma writes_through_unreviewFile file : writes_through (unreviewFile h file).
Proof. unfold unreviewFile. track_steps. Qed.

Lemma writes_through_handleFileRename file oldPath :
  writes_through (handleFileRename h file oldPath).
Proof. unfold handleFileRename. track_steps. Qed.

Lemma writes_through_handleFileDelete file :
  writes_through (handleFileDelete h file).
Proof. unfold handleFileDelete. track_steps. Qed.

Lemma writes_through_addNewFiles : writes_through (addNewFiles h).
Proof.
  unfold addNewFiles. apply stays_or_ends_good_ends. ends_good_steps.
Qed.

Lemma writes_through_createSnapshot : writes_through (createSnapshot h).
Proof.
  unfold createSnapshot. apply stays_or_ends_good_ends. ends_good_steps.
Qed.

Lemma writes_through_deleteSnapshot askForConfirmation :
  writes_through (deleteSnapshot h askForConfirmation).
Proof.
  unfold deleteSnapshot. cbv zeta.
  set (onDelete := bind (assign_settings (set_snapshot None)) _).
  assert (Hdel : writes_through onDelete)
    by (apply stays_or_ends_good_ends; unfold onDelete; ends_good_steps).
  destruct askForConfirmation; [destruct (confirm_delete h)|].
  - apply stays_or_ends_good_stays, stays_ret.
  - apply stays_or_ends_good_bind; [done|intros _].
    apply stays_or_ends_good_bind; [by apply stays_or_ends_good_times|intros _].
    apply stays_or_ends_good_stays, stays_ret.
  - apply stays_or_ends_good_bind; [done|intros _].
    apply stays_or_ends_good_stays, stays_ret.
Qed.

Lemma writes_through_toggle_onChange value :
  writes_through (toggle_onChange h value).
Proof.
  unfold toggle_onChange. apply stays_or_ends_good_ends. ends_good_steps.
Qed.

#[local] Hint Resolve writes_through_openRandomFile
  writes_through_completeReview writes_through_unreviewFile
  writes_through_handleFileRename writes_through_handleFileDelete
  writes_through_addNewFiles writes_through_createSnapshot
  writes_through_deleteSnapshot writes_through_toggle_onChange : track.

Lemma writes_through_run_op op : writes_through (run_op h op).
Proof. destruct op; cbn [run_op]; auto with track. Qed.

Lemma writes_through_click b : writes_through (click h b).
Proof. unfold click, clickDeleteSnapshot. track_steps. Qed.

Lemma writes_through_checkCallback c checking :
  writes_through (checkCallback h c checking).
Proof. unfold checkCallback. track_steps. Qed.

Lemma writes_through_onChooseSuggestion action :
  writes_through (onChooseSuggestion h action).
Proof. unfold onChooseSuggestion. track_steps. Qed.

Lemma writes_through_openFileStatusController :
  writes_through (openFileStatusController h).
Proof.
  unfold openFileStatusController. apply stays_or_ends_good_stays. stays_steps.
Qed.

#[local] Hint Resolve writes_through_run_op writes_through_click
  writes_through_checkCallback writes_through_onChooseSuggestion
  writes_through_openFileStatusController : track.

Lemma writes_through_run_entry e : writes_through (run_entry h e).
Proof.
  destruct e; cbn [run_entry]; try solve [track_steps].
  apply stays_or_ends_good_bind; [apply stays_or_ends_good_stays; stays_steps|].
  intros sb. destruct n as [|[|n]].
  - change (writes_through (completeReview h None false)). auto with track.
  - change (writes_through (unreviewFile h None)). auto with track.
  - change (writes_through (ret tt)). apply stays_or_ends_good_stays, stays_ret.
Qed.

(** X3. Whatever the user or Obsidian makes the plugin do (a review or an
    unreview, by command, menu, or controller; opening a random file; a
    rename or a delete notification; a button or the toggle of the settings
    tab; deleting the snapshot), the settings that it leaves are saved if it
    changed them: the last call of [saveData] then carries the settings as
    they are. So once the settings are saved, they stay saved. *)
Theorem run_entry_saves_changes e w :
  let w' := exec (run_entry h e) w in
  (plugin_settings w' ≠ plugin_settings w -> synced w')
  /\ (synced w -> synced w').
Proof.
  cbn zeta. destruct (writes_through_run_entry e w) as [Hstay|Hsync].
  - injection Hstay as Hs Hd. split; [done|]. unfold synced. by rewrite Hs, Hd.
  - by split.
Qed.

End DataFile.

(** ** The status bar and the settings panel *)

Section Display.

Variable h : Host.

#[local] Abbreviation keeps_bar := (stays_or_ends_good bar_view (bar_good h)).

Lemma keeps_bar_focusFile file newLeaf : keeps_bar (focusFile h file newLeaf).
Proof. unfold focusFile. track_steps. Qed.

#[local] Hint Resolve keeps_bar_focusFile : track.

Lemma keeps_bar_openRandomFile : keeps_bar (openRandomFile h).
Proof. unfold openRandomFile. track_steps. Qed.

Lemma keeps_bar_completeReview file openNext :
  keeps_bar (completeReview h file openNext).
Proof. unfold completeReview. track_steps. Qed.

Lemma keeps_bar_unreviewFile file : keeps_bar (unreviewFile h file).
Proof. unfold unreviewFile. track_steps. Qed.

Lemma keeps_bar_handleFileDelete file : keeps_bar (handleFileDelete h file).
Proof. unfold handleFileDelete. track_steps. Qed.

Lemma keeps_bar_addNewFiles : keeps_bar (addNewFiles h).
Proof. unfold addNewFiles. apply stays_or_ends_good_ends. ends_good_steps. Qed.

Lemma keeps_bar_createSnapshot : keeps_bar (createSnapshot h).
Proof.
  unfold createSnapshot. apply stays_or_ends_good_ends. ends_good_steps.
Qed.

Lemma keeps_bar_deleteSnapshot askForConfirmation :
  keeps_bar (deleteSnapshot h askForConfirmation).
Proof.
  unfold deleteSnapshot. cbv zeta.
  set (onDelete := bind (assign_settings (set_snapshot None)) _).
  assert (Hdel : keeps_bar onDelete)
    by (apply stays_or_ends_good_ends; unfold onDelete; ends_good_steps).
  destruct askForConfirmation; [destruct (confirm_delete h)|].
  - apply stays_or_ends_good_stays, stays_ret.
  - apply stays_or_ends_good_bind; [done|intros _].
    apply stays_or_ends_good_bind; [by apply stays_or_ends_good_times|intros _].
    apply stays_or_ends_good_stays, stays_ret.
  - apply stays_or_ends_good_bind; [done|intros _].
    apply stays_or_ends_good_stays, stays_ret.
Qed.

Lemma keeps_bar_toggle_onChange value : keeps_bar (toggle_onChange h value).
Proof.
  unfold toggle_onChange. apply stays_or_ends_good_ends. ends_good_steps.
Qed.

#[local] Hint Resolve keeps_bar_openRandomFile keeps_bar_completeReview
  keeps_bar_unreviewFile keeps_bar_handleFileDelete keeps_bar_addNewFiles
  keeps_bar_createSnapshot keeps_bar_deleteSnapshot keeps_bar_toggle_onChange
  : track.

Lemma keeps_bar_click b : keeps_bar (click h b).
Proof. unfold click, clickDeleteSnapshot. track_steps. Qed.

Lemma keeps_bar_checkCallback c checking :
  keeps_bar (checkCallback h c checking).
Proof. unfold checkCallback. track_steps. Qed.

Lemma keeps_bar_onChooseSuggestion action :
  keeps_bar (onChooseSuggestion h action).
Proof. unfold onChooseSuggestion. track_steps. Qed.

Lemma keeps_bar_openFileStatusController :
  keeps_bar (openFileStatusController h).
Proof.
  unfold openFileStatusController. apply stays_or_ends_good_stays. stays_steps.
Qed.

#[local] Hint Resolve keeps_bar_click keeps_bar_checkCallback
  keeps_bar_onChooseSuggestion keeps_bar_openFileStatusController : track.

Lemma keeps_bar_run_entry e :
  (forall file oldPath, e ≠ EOp (OpRename file oldPath)) ->
  keeps_bar (run_entry h e).
Proof.
  intros He. destruct e as [op| | | | | | |]; cbn [run_entry];
    try solve [track_steps].
  - destruct op; cbn [run_op]; auto with track. by destruct (He file oldPath).
  - apply stays_or_ends_good_bind; [apply stays_or_ends_good_stays; stays_steps|].
    intros sb. destruct n as [|[|n]].
    + change (keeps_bar (completeReview h None false)). auto with track.
    + change (keeps_bar (unreviewFile h None)). auto with track.
    + change (keeps_bar (ret tt)). apply stays_or_ends_good_stays, stays_ret.
Qed.

(** X4. The status bar follows the ledger. [StatusBar.update], which also
    runs when a file is opened, makes it show the status of the active file
    ([bar_agrees]), whatever it showed before, and so does
    [onExternalSettingsChange]. And each of these leaves a status bar that
    agreed with the ledger in agreement with it, for the same active file: a
    review or an unreview (by command, by the menu of the status bar, by the
    controller), opening a random file, a delete notification, the buttons
    and the toggle of the settings tab, and [deleteSnapshot]. A rename
    notification, which does not update the status bar, is left out. *)
Theorem run_entry_keeps_status_bar e w :
  let agrees w := bar_agrees h (plugin_settings w) (statusBar w) in
  agrees (exec (StatusBar_update h) w)
  /\ agrees (exec (onExternalSettingsChange h) w)
  /\ ((forall file oldPath, e ≠ EOp (OpRename file oldPath)) ->
      agrees w -> agrees (exec (run_entry h e) w)).
Proof.
  cbn zeta. split_and!.
  - apply (bar_good_StatusBar_update h w).
  - unfold onExternalSettingsChange. rewrite exec_bind.
    apply (bar_good_StatusBar_update h).
  - intros He Hw.
    by apply (stays_or_ends_good_inv bar_view (bar_good h) _ w
                (keeps_bar_run_entry e He)).
Qed.

#[local] Abbreviation keeps_panel := (stays_or_ends_good panel_view panel_good).

Lemma keeps_panel_focusFile file newLeaf :
  keeps_panel (focusFile h file newLeaf).
Proof.
  unfold focusFile. apply stays_or_ends_good_stays. stays_steps.
Qed.

#[local] Hint Resolve keeps_panel_focusFile : track.

Lemma keeps_panel_openRandomFile : keeps_panel (openRandomFile h).
Proof. unfold openRandomFile. track_steps. Qed.

#[local] Hint Resolve keeps_panel_openRandomFile : track.

Lemma keeps_panel_completeReview file openNext :
  keeps_panel (completeReview h file openNext).
Proof. unfold completeReview. track_steps. Qed.

Lemma keeps_panel_unreviewFile file : keeps_panel (unreviewFile h file).
Proof.
  unfold unreviewFile. apply stays_or_ends_good_stays. stays_steps.
Qed.

Lemma keeps_panel_handleFileRename file oldPath :
  keeps_panel (handleFileRename h file oldPath).
Proof.
  unfold handleFileRename. apply stays_or_ends_good_stays. stays_steps.
Qed.

Lemma keeps_panel_handleFileDelete file :
  keeps_panel (handleFileDelete h file).
Proof.
  unfold handleFileDelete. apply stays_or_ends_good_stays. stays_steps.
Qed.

Lemma keeps_panel_addNewFiles : keeps_panel (addNewFiles h).
Proof. unfold addNewFiles. apply stays_or_ends_good_ends. ends_good_steps. Qed.

Lemma keeps_panel_createSnapshot : keeps_panel (createSnapshot h).
Proof.
  unfold createSnapshot. apply stays_or_ends_good_ends. ends_good_steps.
Qed.

Lemma keeps_panel_clickDeleteSnapshot : keeps_panel (clickDeleteSnapshot h).
Proof.
  unfold clickDeleteSnapshot. apply stays_or_ends_good_ends. ends_good_steps.
Qed.

Lemma keeps_panel_toggle_onChange value :
  keeps_panel (toggle_onChange h value).
Proof.
  unfold toggle_onChange. apply stays_or_ends_good_stays.
  apply stays_bind; [by intros w|intros ?]. stays_steps.
Qed.

#[local] Hint Resolve keeps_panel_completeReview keeps_panel_unreviewFile
  keeps_panel_handleFileRename keeps_panel_handleFileDelete
  keeps_panel_addNewFiles keeps_panel_createSnapshot
  keeps_panel_clickDeleteSnapshot keeps_panel_toggle_onChange : track.

Lemma keeps_panel_run_entry e :
  (forall askForConfirmation, e ≠ EDeleteSnapshot askForConfirmation) ->
  keeps_panel (run_entry h e).
Proof.
  intros He. destruct e as [op| | | |b|ask| |]; cbn [run_entry].
  - destruct op; cbn [run_op]; auto with track.
  - unfold checkCallback. track_steps.
  - apply stays_or_ends_good_bind; [apply stays_or_ends_good_stays; stays_steps|].
    intros sb. destruct n as [|[|n]].
    + change (keeps_panel (completeReview h None false)). auto with track.
    + change (keeps_panel (unreviewFile h None)). auto with track.
    + change (keeps_panel (ret tt)). apply stays_or_ends_good_stays, stays_ret.
  - auto with track.
  - unfold click. track_steps.
  - by destruct (He ask).
  - unfold openFileStatusController. apply stays_or_ends_good_stays. stays_steps.
  - unfold onChooseSuggestion. track_steps.
Qed.

(** X5. The settings tab shows the buttons that go with the ledger, the
    create button if there is no snapshot and the trash and the add button if
    there is one. [display] draws them so, whatever the tab showed before.
    And each of these leaves a tab that agreed with the ledger in agreement
    with it: a review or an unreview (by command, by the menu of the status
    bar, by the controller), opening a random file, a rename or a delete
    notification, a click on a button that the tab shows (the trash button,
    whatever is done in its modal, the add and the create button), and the
    toggle. The two handlers that change the snapshot without drawing the
    tab again, a call of [deleteSnapshot] from elsewhere and
    [onExternalSettingsChange], are left out. *)
Theorem run_entry_keeps_panel e w :
  let agrees w := panel_agrees (plugin_settings w) (panel w) in
  agrees (exec display w)
  /\ ((forall askForConfirmation, e ≠ EDeleteSnapshot askForConfirmation) ->
      agrees w -> agrees (exec (run_entry h e) w)).
Proof.
  cbn zeta. split.
  - apply (panel_good_display w).
  - intros He Hw.
    by apply (stays_or_ends_good_inv panel_view panel_good _ w
                (keeps_panel_run_entry e He)).
Qed.

End Display.

(** ** Marking a file, and reading its status back *)

(** An update of an element that neither was nor becomes a match does not
    change what [find] finds. *)
Lemma list_find_alter_ne {A} (P : A -> Prop) `{!forall x, Decision (P x)}
    (g : A -> A) i (l : list A) x0 :
  l !! i = Some x0 -> ~ P x0 -> ~ P (g x0) ->
  list_find P (alter g i l) = list_find P l.
Proof.
  intros Hi Hx0 Hgx0.
  destruct (list_find P l) as [[j x]|] eqn:Hfind.
  - apply list_find_Some in Hfind as (Hj & Hx & Hfirst).
    assert (i ≠ j) by (intros ->; congruence).
    apply list_find_Some. split_and!; [by rewrite list_lookup_alter_ne|done|].
    intros k y Hk Hlt. destruct (decide (i = k)) as [<-|Hik].
    + rewrite list_lookup_alter_eq, Hi in Hk. by injection Hk as <-.
    + rewrite list_lookup_alter_ne in Hk by done. eauto.
  - apply list_find_None. rewrite list_find_None in Hfind.
    apply Forall_lookup. intros k y Hk.
    destruct (decide (i = k)) as [<-|Hik].
    + rewrite list_lookup_alter_eq, Hi in Hk. by injection Hk as <-.
    + rewrite list_lookup_alter_ne in Hk by done.
      rewrite Forall_lookup in Hfind. by apply (Hfind k).
Qed.

Lemma list_find_snoc_ne {A} (P : A -> Prop) `{!forall x, Decision (P x)}
    (l : list A) x :
  ~ P x -> list_find P (l ++ [x]) = list_find P l.
Proof.
  intros Hx. destruct (list_find P l) as [[j y]|] eqn:Hfind.
  - by apply list_find_app_l.
  - rewrite list_find_app_r by done. cbn. by rewrite decide_False.
Qed.

Section Marking.

Variable h : Host.

Lemma completeReview_marked file w :
  plugin_settings (exec (completeReview h file false) w) =
    match file_or_active h file with
    | Some activeFile => marked h reviewed activeFile (plugin_settings w)
    | None => plugin_settings w
    end.
Proof. apply completeReview_settings. Qed.

Lemma unreviewFile_marked file w :
  plugin_settings (exec (unreviewFile h file) w) =
    match file_or_active h file with
    | Some activeFile => marked h to_review activeFile (plugin_settings w)
    | None => plugin_settings w
    end.
Proof. apply unreviewFile_settings. Qed.

Lemma marked_None st activeFile vs :
  snapshot vs = None -> marked h st activeFile vs = vs.
Proof.
  intros Hs. unfold marked. rewrite getSnapshotFile_None by done.
  by apply update_files_None.
Qed.

(** The marking of a file that has a record, and of one that has none. *)
Lemma marked_tracked st activeFile vs s i x :
  like_path activeFile ≠ "" -> snapshot vs = Some s ->
  list_find (fun f => path f = like_path activeFile) (files s) = Some (i, x) ->
  marked h st activeFile vs =
    {| snapshot := Some {| files := alter (set_status st) i (files s);
                           createdAt := createdAt s |};
       settings := settings vs |}.
Proof.
  intros Hp Hs Hfind. unfold marked.
  rewrite (getSnapshotFile_path _ _ s), Hfind by done.
  by apply update_files_Some.
Qed.

Lemma marked_untracked st activeFile vs s :
  like_path activeFile ≠ "" -> snapshot vs = Some s ->
  list_find (fun f => path f = like_path activeFile) (files s) = None ->
  marked h st activeFile vs =
    {| snapshot := Some {| files := files s ++ [toFile activeFile st];
                           createdAt := createdAt s |};
       settings := settings vs |}.
Proof.
  intros Hp Hs Hfind. unfold marked.
  rewrite (getSnapshotFile_path _ _ s), Hfind by done.
  by rewrite (update_files_Some _ _ s).
Qed.

(** The record that a lookup of a non-empty path finds after the marking. *)
Lemma marked_found st activeFile vs s :
  like_path activeFile ≠ "" -> snapshot vs = Some s ->
  exists i,
    getSnapshotFile h (marked h st activeFile vs) (Some (like_path activeFile))
      = Some (i, {| path := like_path activeFile; status := st |}).
Proof.
  intros Hp Hs.
  destruct (list_find (fun f => path f = like_path activeFile) (files s))
    as [[i x]|] eqn:Hfind.
  - exists i. rewrite (marked_tracked st _ _ s i x) by done.
    erewrite getSnapshotFile_path; [|done|reflexivity]. cbn [files].
    rewrite (list_find_path_alter _ _ _ _ x) by done.
    apply list_find_Some in Hfind as (_ & Hx & _). unfold set_status.
    by rewrite Hx.
  - exists (length (files s)). rewrite (marked_untracked st _ _ s) by done.
    erewrite getSnapshotFile_path; [|done|reflexivity]. cbn [files].
    by apply list_find_path_snoc.
Qed.

Lemma marked_status st activeFile vs s :
  like_path activeFile ≠ "" -> snapshot vs = Some s ->
  file_status h (marked h st activeFile vs) (like_path activeFile) = stored st.
Proof.
  intros Hp Hs. unfold file_status.
  by destruct (marked_found st activeFile vs s Hp Hs) as (i & ->).
Qed.

Lemma marked_status_other st activeFile vs q :
  q ≠ like_path activeFile ->
  file_status h (marked h st activeFile vs) q = file_status h vs q.
Proof.
  intros Hq. destruct (snapshot vs) as [s|] eqn:Hs;
    [|by rewrite marked_None].
  destruct (decide (q = "")) as [->|Hq0]; [done|].
  unfold file_status. rewrite (getSnapshotFile_path _ vs s) by done.
  unfold marked.
  destruct (getSnapshotFile h vs _) as [[i x]|] eqn:Hg.
  - assert (Hi : files s !! i = Some x /\ path x = like_path activeFile).
    { unfold getSnapshotFile in Hg. rewrite Hs in Hg.
      case_bool_decide; [done|].
      by apply list_find_Some in Hg as (? & ? & _). }
    destruct Hi as [Hi Hx].
    erewrite getSnapshotFile_path; [|done|by erewrite update_files_Some].
    cbn [files].
    rewrite (list_find_alter_ne _ _ _ _ x); [done..| |]; cbn; congruence.
  - erewrite getSnapshotFile_path; [|done|by erewrite update_files_Some].
    cbn [files]. rewrite list_find_snoc_ne; [done|]. cbn. congruence.
Qed.

(** Of two markings of the same file in a row, the second decides. *)
Lemma marked_marked st1 st2 activeFile vs :
  like_path activeFile ≠ "" ->
  marked h st2 activeFile (marked h st1 activeFile vs) = marked h st2 activeFile vs.
Proof.
  intros Hp. destruct (snapshot vs) as [s|] eqn:Hs;
    [|by rewrite (marked_None st1 _ vs Hs), (marked_None st2 _ vs Hs)].
  destruct (list_find (fun f => path f = like_path activeFile) (files s))
    as [[i x]|] eqn:Hfind.
  - rewrite (marked_tracked st1 _ vs s i x), (marked_tracked st2 _ vs s i x)
      by done.
    erewrite (marked_tracked st2 _ _ _ i (set_status st1 x));
      [|done|reflexivity|by apply list_find_path_alter].
    cbn. by rewrite list_alter_alter_eq.
  - rewrite (marked_untracked st1 _ vs s), (marked_untracked st2 _ vs s) by done.
    erewrite (marked_tracked st2 _ _ _ (length (files s)) (toFile activeFile st1));
      [|done|reflexivity|by apply list_find_path_snoc].
    cbn. by rewrite alter_app_r_alt, Nat.sub_diag by lia.
Qed.

(** Writing to a record the status that it has changes nothing. *)
Lemma alter_set_status_same i (l : list File) x :
  l !! i = Some x -> alter (set_status (status x)) i l = l.
Proof.
  intros Hi. rewrite <-(list_alter_id id l i) at 2 by done.
  apply list_alter_ext; [|done].
  intros y Hy. rewrite Hi in Hy. injection Hy as <-. by destruct x.
Qed.

(** Marking a file with the status that its record has changes nothing. *)
Lemma marked_same activeFile vs s i x :
  like_path activeFile ≠ "" -> snapshot vs = Some s ->
  list_find (fun f => path f = like_path activeFile) (files s) = Some (i, x) ->
  marked h (status x) activeFile vs = vs.
Proof.
  intros Hp Hs Hfind. rewrite (marked_tracked _ _ vs s i x) by done.
  apply list_find_Some in Hfind as (Hi & _ & _).
  rewrite alter_set_status_same by done.
  destruct vs as [sn se], s as [fs c]. cbn in *. by rewrite Hs.
Qed.

(** X6. With a snapshot, after [completeReview] of a file of non-empty path
    the status read back for that path is [reviewed], and after [unreviewFile]
    it is [to_review], whatever the status was (none, or [deleted]); the
    status of every other path is what it was. *)
Theorem mark_then_status file w s activeFile :
  snapshot (plugin_settings w) = Some s ->
  file_or_active h file = Some activeFile ->
  like_path activeFile ≠ "" ->
  let p := like_path activeFile in
  let w1 := exec (completeReview h file false) w in
  let w2 := exec (unreviewFile h file) w in
  file_status h (plugin_settings w1) p = stored reviewed
  /\ file_status h (plugin_settings w2) p = stored to_review
  /\ forall q, q ≠ p ->
       file_status h (plugin_settings w1) q = file_status h (plugin_settings w) q
       /\ file_status h (plugin_settings w2) q = file_status h (plugin_settings w) q.
Proof.
  intros Hs Ha Hp. cbn zeta.
  rewrite completeReview_marked, unreviewFile_marked, Ha.
  split_and!.
  - by apply (marked_status _ _ _ s).
  - by apply (marked_status _ _ _ s).
  - intros q Hq. split; by apply marked_status_other.
Qed.

(** X7. Of two markings of the same file of non-empty path in a row, the
    second decides: the ledger after a review and then an unreview is the one
    after the unreview alone, and likewise with the two exchanged; and an
    unreview done twice is an unreview done once. *)
Theorem last_mark_wins file w :
  (forall activeFile, file_or_active h file = Some activeFile ->
     like_path activeFile ≠ "") ->
  let review := exec (completeReview h file false) in
  let unreview := exec (unreviewFile h file) in
  plugin_settings (unreview (review w)) = plugin_settings (unreview w)
  /\ plugin_settings (review (unreview w)) = plugin_settings (review w)
  /\ plugin_settings (unreview (unreview w)) = plugin_settings (unreview w).
Proof.
  intros Hp. cbn zeta.
  destruct (file_or_active h file) as [activeFile|] eqn:Ha.
  - specialize (Hp activeFile eq_refl).
    repeat first [rewrite completeReview_marked
                 |rewrite unreviewFile_marked
                 |rewrite Ha].
    split_and!; by apply marked_marked.
  - repeat first [rewrite completeReview_marked
                 |rewrite unreviewFile_marked
                 |rewrite Ha].
    done.
Qed.

(** A status of the active file that is a stored one comes from a record that
    the lookup finds. *)
Lemma getActiveFileStatus_stored vs st :
  getActiveFileStatus h vs = Some (stored st) ->
  exists activeFile s i x,
    getActiveFile h = Some activeFile
    /\ tfile_path activeFile ≠ ""
    /\ snapshot vs = Some s
    /\ list_find (fun f => path f = tfile_path activeFile) (files s) = Some (i, x)
    /\ status x = st.
Proof.
  unfold getActiveFileStatus, file_status, getSnapshotFile.
  destruct (getActiveFile h) as [activeFile|]; [|done].
  case_bool_decide; [done|].
  destruct (snapshot vs) as [s|]; [|done].
  destruct (list_find _ (files s)) as [[i x]|] eqn:Hfind; [|done].
  intros [= <-]. by exists activeFile, s, i, x.
Qed.

(** The notices of a [completeReview] without [openNext], and of an
    [unreviewFile], of a file that has a record: none is added. *)
Lemma completeReview_notices_found file w activeFile i x :
  file_or_active h file = Some activeFile ->
  getSnapshotFile h (plugin_settings w) (Some (like_path activeFile)) = Some (i, x) ->
  notices (exec (completeReview h file false) w) = notices w.
Proof.
  intros Ha Hg. unfold completeReview. rewrite Ha.
  rewrite !exec_bind, value_of_gets, exec_gets, Hg.
  change (notices (exec saveSettings ?y)) with (notices y).
  by rewrite StatusBar_update_notices.
Qed.

Lemma unreviewFile_notices_found file w activeFile i x :
  file_or_active h file = Some activeFile ->
  getSnapshotFile h (plugin_settings w) (Some (like_path activeFile)) = Some (i, x) ->
  notices (exec (unreviewFile h file) w) = notices w.
Proof.
  intros Ha Hg. unfold unreviewFile. rewrite Ha.
  rewrite !exec_bind, value_of_gets, exec_gets, Hg.
  change (notices (exec saveSettings ?y)) with (notices y).
  by rewrite StatusBar_update_notices.
Qed.

(** X8. When the command "Review file" is available (its check succeeds),
    running it adds no record and shows no notice; afterwards it is no longer
    available and "Unreview file" is; and running that one gives back the
    ledger as it was. *)
Theorem review_command_round_trip w :
  value_of (checkCallback h complete_review true) w = Some true ->
  let w1 := exec (checkCallback h complete_review false) w in
  let w2 := exec (checkCallback h unreview_file false) w1 in
  notices w1 = notices w
  /\ length <$> (files <$> snapshot (plugin_settings w1))
     = length <$> (files <$> snapshot (plugin_settings w))
  /\ value_of (checkCallback h complete_review true) w1 = Some false
  /\ value_of (checkCallback h unreview_file true) w1 = Some true
  /\ plugin_settings w2 = plugin_settings w
  /\ notices w2 = notices w.
Proof.
  intros Hcheck.
  assert (Hst : getActiveFileStatus h (plugin_settings w) = Some (stored to_review)).
  { unfold checkCallback in Hcheck. rewrite value_of_bind, value_of_gets in Hcheck.
    cbn in Hcheck. injection Hcheck as Hcheck.
    by apply bool_decide_eq_true_1 in Hcheck. }
  destruct (getActiveFileStatus_stored _ _ Hst)
    as (activeFile & s & i & x & Ha & Hp & Hs & Hfind & Hx).
  assert (Hfa : file_or_active h None = Some (OfTFile activeFile))
    by (unfold file_or_active; by rewrite Ha).
  assert (Hrun1 : exec (checkCallback h complete_review false) w
                  = exec (completeReview h None false) w)
    by (unfold checkCallback; by rewrite exec_bind).
  cbn zeta. rewrite Hrun1.
  set (w1 := exec (completeReview h None false) w).
  assert (Hrun2 : exec (checkCallback h unreview_file false) w1
                  = exec (unreviewFile h None) w1)
    by (unfold checkCallback; by rewrite exec_bind).
  rewrite Hrun2.
  assert (H1 : plugin_settings w1
               = marked h reviewed (OfTFile activeFile) (plugin_settings w)).
  { unfold w1. by rewrite completeReview_marked, Hfa. }
  assert (Hst1 : getActiveFileStatus h (plugin_settings w1) = Some (stored reviewed)).
  { unfold getActiveFileStatus. rewrite Ha, H1. f_equal.
    by apply (marked_status reviewed (OfTFile activeFile) _ s). }
  assert (Hn1 : notices w1 = notices w).
  { apply (completeReview_notices_found None w (OfTFile activeFile) i x Hfa).
    cbn [like_path]. by rewrite (getSnapshotFile_path _ _ s). }
  split_and!.
  - done.
  - rewrite H1, (marked_tracked reviewed _ _ s i x), Hs by done. cbn.
    by rewrite length_alter.
  - unfold checkCallback. rewrite value_of_bind, value_of_gets. cbn.
    by rewrite Hst1.
  - unfold checkCallback. rewrite value_of_bind, value_of_gets. cbn.
    by rewrite Hst1.
  - rewrite unreviewFile_marked, Hfa, H1, marked_marked by done.
    rewrite <-Hx. by apply (marked_same (OfTFile activeFile) _ s i x).
  - rewrite <-Hn1.
    destruct (marked_found reviewed (OfTFile activeFile) _ s Hp Hs) as (j & Hj).
    rewrite <-H1 in Hj.
    exact (unreviewFile_notices_found None w1 (OfTFile activeFile) j _ Hfa Hj).
Qed.

End Marking.

(** ** Renaming a file, and reading its status back *)

(** The record renamed to a path that no record has is the one found at that
    path. *)
Lemma list_find_path_renamed newPath i (l : list File) x :
  l !! i = Some x -> newPath ∉ path <$> l ->
  list_find (fun f => path f = newPath) (alter (set_path newPath) i l)
    = Some (i, set_path newPath x).
Proof.
  intros Hi Hnew. apply list_find_Some. split_and!.
  - by rewrite list_lookup_alter_eq, Hi.
  - done.
  - intros k y Hk Hlt Hy. rewrite list_lookup_alter_ne in Hk by lia.
    apply Hnew, list_elem_of_fmap. exists y. split; [done|].
    by eapply list_elem_of_lookup_2.
Qed.

(** Renaming a record and renaming it back gives the list as it was. *)
Lemma alter_set_path_back newPath i (l : list File) x :
  l !! i = Some x ->
  alter (set_path (path x)) i (alter (set_path newPath) i l) = l.
Proof.
  intros Hi. rewrite list_alter_alter_eq.
  rewrite <-(list_alter_id id l i) at 2 by done.
  apply list_alter_ext; [|done].
  intros y Hy. rewrite Hi in Hy. injection Hy as <-. by destruct x.
Qed.

Section Renaming.

Variable h : Host.

(** X9. A file with a record is renamed from a non-empty path to a non-empty
    path that has no record. The status read back at the new path is the one
    that the old path had; the status of every other path is what it was;
    when paths are pairwise distinct the old path reads [new]; and the rename
    in the other direction gives back the ledger as it was. *)
Theorem rename_then_status f oldPath w s :
  snapshot (plugin_settings w) = Some s ->
  oldPath ≠ "" ->
  tfile_path f ≠ "" ->
  Exists (fun x => path x = oldPath) (files s) ->
  tfile_path f ∉ path <$> files s ->
  let newPath := tfile_path f in
  let w1 := exec (handleFileRename h (AFile f) oldPath) w in
  file_status h (plugin_settings w1) newPath = file_status h (plugin_settings w) oldPath
  /\ (forall q, q ≠ oldPath -> q ≠ newPath ->
      file_status h (plugin_settings w1) q = file_status h (plugin_settings w) q)
  /\ (NoDup (path <$> files s) ->
      file_status h (plugin_settings w1) oldPath = new)
  /\ (forall f_old, tfile_path f_old = oldPath ->
      plugin_settings (exec (handleFileRename h (AFile f_old) newPath) w1)
        = plugin_settings w).
Proof.
  intros Hs Hold Hnew Hex Hfresh. cbn zeta.
  destruct (list_find_Exists _ _ Hex) as (i & x & Hfind).
  assert (Hg : getSnapshotFile h (plugin_settings w) (Some oldPath) = Some (i, x))
    by by rewrite (getSnapshotFile_path _ _ s).
  destruct (handleFileRename_found h f _ _ _ _ _ Hs Hg) as [H1 _].
  apply list_find_Some in Hfind as (Hi & Hx & Hfirst).
  set (w1 := exec (handleFileRename h (AFile f) oldPath) w) in *.
  assert (Hs1 : snapshot (plugin_settings w1)
                = Some {| files := alter (set_path (tfile_path f)) i (files s);
                          createdAt := createdAt s |}) by by rewrite H1.
  assert (Hfind1 : getSnapshotFile h (plugin_settings w1) (Some (tfile_path f))
                   = Some (i, set_path (tfile_path f) x)).
  { erewrite getSnapshotFile_path; [|done..]. cbn [files].
    by apply list_find_path_renamed. }
  split_and!.
  - unfold file_status. by rewrite Hfind1, Hg.
  - intros q Hq Hq'. destruct (decide (q = "")) as [->|Hq0]; [done|].
    unfold file_status.
    erewrite (getSnapshotFile_path _ (plugin_settings w1)); [|done..].
    rewrite (getSnapshotFile_path _ (plugin_settings w) s) by done. cbn [files].
    rewrite (list_find_alter_ne _ _ _ _ x); [done..| |]; cbn; congruence.
  - intros Hnd. unfold file_status.
    erewrite getSnapshotFile_path; [|done..]. cbn [files].
    assert (list_find (fun f0 => path f0 = oldPath)
              (alter (set_path (tfile_path f)) i (files s)) = None) as ->; [|done].
    apply list_find_None, Forall_lookup. intros k y Hk Hy.
    rewrite list_lookup_alter in Hk. case_decide as Hik.
    + subst k. rewrite Hi in Hk. injection Hk as <-. cbn in Hy.
      apply Hfresh. rewrite Hy, <-Hx. apply list_elem_of_fmap.
      exists x. split; [done|]. by eapply list_elem_of_lookup_2.
    + apply Hik. eapply NoDup_path_lookup; [done..|congruence].
  - intros f_old Hf_old.
    destruct (handleFileRename_found h f_old (tfile_path f) w1 _ i _ Hs1 Hfind1)
      as [-> _].
    cbn [files createdAt]. rewrite H1. cbn [settings].
    rewrite Hf_old, <-Hx, alter_set_path_back by done.
    destruct (plugin_settings w) as [sn se], s as [fs c]. cbn in *.
    by rewrite Hs.
Qed.

End Renaming.

(** ** Deleting and evicting, and reading the status back *)

(** What [find] finds is found as well among the elements of which only
    non-matches were filtered out. *)
Lemma list_find_filter_snd {A} (P Q : A -> Prop)
    `{!forall x, Decision (P x)} `{!forall x, Decision (Q x)} (l : list A) :
  (forall x, P x -> Q x) ->
  snd <$> list_find P (filter Q l) = snd <$> list_find P l.
Proof.
  intros HPQ. induction l as [|a l IH]; [done|].
  rewrite filter_cons. destruct (decide (Q a)) as [HQ|HQ].
  - cbn. destruct (decide (P a)); [done|].
    destruct (list_find P (filter Q l)) as [[? ?]|],
      (list_find P l) as [[? ?]|]; cbn in *; congruence.
  - cbn. destruct (decide (P a)) as [HP|HP]; [by destruct HQ; apply HPQ|].
    destruct (list_find P (filter Q l)) as [[? ?]|],
      (list_find P l) as [[? ?]|]; cbn in *; congruence.
Qed.

(** The elements of a list updated at one index are the updated element and
    elements of the list. *)
Lemma elem_of_alter_inv {A} (g : A -> A) i (l : list A) x y :
  l !! i = Some x -> y ∈ alter g i l -> y = g x \/ y ∈ l.
Proof.
  intros Hi [k Hk]%list_elem_of_lookup.
  rewrite list_lookup_alter in Hk. case_decide as Hik.
  - subst k. rewrite Hi in Hk. left. by injection Hk.
  - right. by eapply list_elem_of_lookup_2.
Qed.

Section Removal.

Variable h : Host.

(** The ledger after a delete notification for a file that has a record. *)
Lemma handleFileDelete_marked f w s :
  snapshot (plugin_settings w) = Some s ->
  tfile_path f ≠ "" ->
  Exists (fun x => path x = tfile_path f) (files s) ->
  plugin_settings (exec (handleFileDelete h (AFile f)) w)
    = marked h deleted (OfTFile f) (plugin_settings w).
Proof.
  intros Hs Hp Hex.
  destruct (list_find_Exists _ _ Hex) as (i & x & Hfind).
  assert (Hg : getSnapshotFile h (plugin_settings w) (Some (tfile_path f))
               = Some (i, x)) by by rewrite (getSnapshotFile_path _ _ s).
  destruct (handleFileDelete_found h f w s i x Hs Hg) as [-> _].
  by rewrite (marked_tracked h deleted (OfTFile f) _ s i x).
Qed.

(** X10. After a delete notification for a file of non-empty path that has a
    record, the status read back for that path is [deleted] and the status of
    every other path is what it was; no record becomes a candidate for
    [openRandomFile] and, when paths are pairwise distinct, no candidate has
    the path of the deleted file; a second notification changes nothing. *)
Theorem delete_then_status f w s :
  snapshot (plugin_settings w) = Some s ->
  tfile_path f ≠ "" ->
  Exists (fun x => path x = tfile_path f) (files s) ->
  let p := tfile_path f in
  let w1 := exec (handleFileDelete h (AFile f)) w in
  file_status h (plugin_settings w1) p = stored deleted
  /\ (forall q, q ≠ p ->
      file_status h (plugin_settings w1) q = file_status h (plugin_settings w) q)
  /\ (forall r, r ∈ getToReviewFiles (plugin_settings w1) ->
      r ∈ getToReviewFiles (plugin_settings w)
      /\ (NoDup (path <$> files s) -> path r ≠ p))
  /\ plugin_settings (exec (handleFileDelete h (AFile f)) w1) = plugin_settings w1.
Proof.
  intros Hs Hp Hex. cbn zeta.
  pose proof (handleFileDelete_marked f w s Hs Hp Hex) as H1.
  destruct (list_find_Exists _ _ Hex) as (i & x & Hfind).
  pose proof (marked_tracked h deleted (OfTFile f) _ s i x Hp Hs Hfind) as Hm.
  apply list_find_Some in Hfind as (Hi & Hx & _).
  split_and!.
  - rewrite H1. by apply (marked_status h deleted (OfTFile f) _ s).
  - intros q Hq. rewrite H1. by apply (marked_status_other h deleted (OfTFile f)).
  - intros r Hr. rewrite H1, Hm in Hr.
    apply (getToReviewFiles_elem _ {| files := alter (set_status deleted) i (files s);
                                      createdAt := createdAt s |}) in Hr; [|done].
    destruct Hr as [Hr Hst]. cbn [files] in Hr.
    assert (Hin : r ∈ files s).
    { destruct (elem_of_alter_inv _ _ _ _ _ Hi Hr) as [->|?]; [done|done]. }
    split.
    + by apply (getToReviewFiles_elem _ s).
    + intros Hnd Hrp.
      apply list_elem_of_lookup in Hr as [k Hk].
      rewrite list_lookup_alter in Hk. case_decide as Hik.
      * subst k. rewrite Hi in Hk. injection Hk as <-. done.
      * apply Hik. eapply NoDup_path_lookup; [done..|congruence].
  - set (w1 := exec (handleFileDelete h (AFile f)) w) in *.
    assert (Hs1 : snapshot (plugin_settings w1)
                  = Some {| files := alter (set_status deleted) i (files s);
                            createdAt := createdAt s |}) by by rewrite H1, Hm.
    rewrite (handleFileDelete_marked f w1 _ Hs1 Hp).
    + rewrite H1. by apply marked_marked.
    + cbn [files]. apply Exists_exists. exists (set_status deleted x).
      split; [|done]. apply list_elem_of_lookup. exists i.
      by rewrite list_lookup_alter_eq, Hi.
Qed.

(** X11. When [focusFile] does not find the file of a record in the vault,
    the status read back for the path of the record is [new] and the status
    of every other path is what it was; no record becomes a candidate for
    [openRandomFile], and no candidate has the path of the record. *)
Theorem evict_then_status file newLeaf w :
  vault_getFileByPath h (path file) = None ->
  let w1 := exec (focusFile h file newLeaf) w in
  file_status h (plugin_settings w1) (path file) = new
  /\ (forall q, q ≠ path file ->
      file_status h (plugin_settings w1) q = file_status h (plugin_settings w) q)
  /\ (forall r, r ∈ getToReviewFiles (plugin_settings w1) ->
      r ∈ getToReviewFiles (plugin_settings w) /\ path r ≠ path file).
Proof.
  intros Hgone. cbn zeta. rewrite focusFile_settings, Hgone.
  destruct (snapshot (plugin_settings w)) as [s|] eqn:Hs; cycle 1.
  { rewrite update_files_None by done. split_and!.
    - unfold file_status. by rewrite getSnapshotFile_None.
    - done.
    - intros r Hr. unfold getToReviewFiles in Hr. rewrite Hs in Hr.
      by apply elem_of_nil in Hr. }
  rewrite (update_files_Some _ _ s) by done.
  split_and!.
  - destruct (decide (path file = "")) as [->|Hp]; [done|].
    unfold file_status. erewrite getSnapshotFile_path; [|done|reflexivity].
    cbn [files].
    assert (list_find (fun f => path f = path file)
              (filter (fun fp => path fp ≠ path file) (files s)) = None) as ->;
      [|done].
    apply list_find_None, Forall_forall.
    by intros r [? _]%list_elem_of_filter.
  - intros q Hq. destruct (decide (q = "")) as [->|Hq0]; [done|].
    unfold file_status. erewrite getSnapshotFile_path; [|done|reflexivity].
    rewrite (getSnapshotFile_path _ _ s) by done. cbn [files].
    pose proof (list_find_filter_snd (fun f => path f = q)
                  (fun fp => path fp ≠ path file) (files s)) as Hsnd.
    destruct (list_find _ (filter _ _)) as [[? ?]|], (list_find _ (files s))
      as [[? ?]|]; cbn in Hsnd; try done.
    + by injection Hsnd as ->; [|congruence].
    + by discriminate Hsnd; congruence.
    + by discriminate Hsnd; congruence.
  - intros r Hr.
    apply (getToReviewFiles_elem _ {| files := filter (fun fp => path fp ≠ path file)
                                                 (files s);
                                      createdAt := createdAt s |}) in Hr; [|done].
    destruct Hr as [[Hrp Hr]%list_elem_of_filter Hst]. split; [|done].
    by apply (getToReviewFiles_elem _ s).
Qed.

End Removal.

(** ** The figures of the settings tab *)

Lemma length_filter_complement {A} (P : A -> Prop) `{!forall x, Decision (P x)}
    (l : list A) :
  length l = length (filter P l) + length (filter (fun x => ~ P x) l).
Proof.
  rewrite <-length_app. symmetry. apply Permutation_length.
  apply filter_app_complement.
Qed.

(** The records of one status each: the three lists make up the records. *)
Lemma length_by_status (l : list File) :
  length l = length (filter (fun f => status f = reviewed) l)
             + length (filter (fun f => status f = to_review) l)
             + length (filter (fun f => status f = deleted) l).
Proof.
  induction l as [|[p []] l IH]; [done|..];
    rewrite !filter_cons; cbn [status];
    repeat (case_decide; try done); cbn [length]; lia.
Qed.

(** X13. The figures that the settings tab shows for a snapshot. The number
    shown as "To review", which is computed from the other three, is the
    number of records with status [to_review], those that [openRandomFile]
    chooses from, and it is not negative. When the records that are not
    deleted have pairwise distinct paths and are files of the vault, which
    lists each file once, the number shown as "Not in snapshot" is the number
    of Markdown files of the vault without such a record. *)
Theorem snapshot_info_counts h s :
  let info := snapshot_info h s in
  let live := filter (fun f => status f ≠ deleted) (files s) in
  let vault := vault_getMarkdownFiles h in
  toReviewFilesLength info
    = Z.of_nat (length (filter (fun f => status f = to_review) (files s)))
  /\ toReviewFilesLength info
     = Z.of_nat (length (getToReviewFiles {| snapshot := Some s;
                                             settings := {| showStatusBar := true |} |}))
  /\ activeFilesLength info = Z.of_nat (length live)
  /\ (NoDup (tfile_path <$> vault) ->
      NoDup (path <$> live) ->
      (forall r, r ∈ live -> path r ∈ tfile_path <$> vault) ->
      notInSnapshotLength info
        = Z.of_nat (length (filter (fun v => tfile_path v ∉ path <$> live) vault))).
Proof.
  cbn zeta.
  pose proof (length_by_status (files s)) as Hsum.
  pose proof (length_filter_complement (fun f => status f = deleted) (files s))
    as Hlive.
  assert (Hto : toReviewFilesLength (snapshot_info h s)
    = Z.of_nat (length (filter (fun f => status f = to_review) (files s)))).
  { unfold snapshot_info. cbn. lia. }
  split_and!.
  - done.
  - by rewrite Hto.
  - unfold snapshot_info. cbn. lia.
  - intros Hv Hl Hsub.
    set (live := filter (fun f => status f ≠ deleted) (files s)) in *.
    set (vault := vault_getMarkdownFiles h) in *.
    pose proof (length_filter_complement
                  (fun v => tfile_path v ∈ path <$> live) vault) as Hvault.
    assert (Hsame : length (filter (fun v => tfile_path v ∈ path <$> live) vault)
                    = length live).
    { rewrite <-(length_fmap tfile_path), <-(length_fmap path live).
      apply Permutation_length, NoDup_Permutation.
      - by apply NoDup_fmap_filter.
      - done.
      - intros q. rewrite list_elem_of_fmap. split.
        + by intros (v & -> & [Hq _]%list_elem_of_filter).
        + intros Hq. pose proof Hq as (r & -> & Hr)%list_elem_of_fmap.
          pose proof (Hsub r Hr) as (v & Hv' & Hin)%list_elem_of_fmap.
          exists v. split; [done|]. apply list_elem_of_filter.
          split; [|done]. by rewrite <-Hv'. }
    unfold snapshot_info. cbn. cbv beta in Hvault.
    subst vault live. lia.
Qed.

(** ** The file status controller *)

Lemma includes_empty s : includes s "" = true.
Proof. by destruct s. Qed.

Section Suggestions.

Variable h : Host.
Variable toLowerCase : string -> string.

(** The test of [getSuggestions] for a reviewed file is that of the status. *)
Lemma isReviewed_status vs activeFile :
  getActiveFile h = Some activeFile ->
  status ∘ snd <$> getSnapshotFile h vs (Some (tfile_path activeFile))
    = Some reviewed
  <-> getActiveFileStatus h vs = Some (stored reviewed).
Proof.
  intros Ha. unfold getActiveFileStatus, file_status. rewrite Ha.
  destruct (getSnapshotFile _ _ _) as [[i x]|]; cbn; [|done].
  split; [by intros [= ->]|by intros [= ->]].
Qed.

Lemma onChooseSuggestion_unreview w :
  exec (onChooseSuggestion h unreview) w = exec (unreviewFile h None) w.
Proof.
  unfold onChooseSuggestion. by rewrite !exec_bind.
Qed.

(** X14. The actions that the file status controller suggests. "Unreview
    file" is suggested only for an active file whose status is [reviewed],
    and the two review actions only for an active Markdown file whose status
    is not [reviewed]; for a query that lower-cases to the empty string every
    action of the state is suggested, "Open random not reviewed file" among
    them. A suggested "Unreview file", when chosen, shows no notice and leaves
    the active file with status [to_review]: it never adds a record. *)
Theorem getSuggestions_spec w query :
  let vs := plugin_settings w in
  let suggestions := getSuggestions h toLowerCase vs query in
  (unreview ∈ suggestions -> getActiveFileStatus h vs = Some (stored reviewed))
  /\ (review ∈ suggestions \/ review_and_next ∈ suggestions ->
      is_Some (getActiveFile h)
      /\ getActiveFileStatus h vs ≠ Some (stored reviewed))
  /\ (toLowerCase query = "" ->
      open_random ∈ suggestions
      /\ (getActiveFileStatus h vs = Some (stored reviewed) ->
          unreview ∈ suggestions)
      /\ (is_Some (getActiveFile h) ->
          getActiveFileStatus h vs ≠ Some (stored reviewed) ->
          review ∈ suggestions /\ review_and_next ∈ suggestions))
  /\ (unreview ∈ suggestions ->
      let w' := exec (onChooseSuggestion h unreview) w in
      notices w' = notices w
      /\ getActiveFileStatus h (plugin_settings w') = Some (stored to_review)).
Proof.
  cbn zeta.
  assert (Hun : unreview ∈ getSuggestions h toLowerCase (plugin_settings w) query ->
                getActiveFileStatus h (plugin_settings w) = Some (stored reviewed)).
  { unfold getSuggestions. intros [_ Hin]%list_elem_of_filter.
    destruct (getActiveFile h) as [activeFile|] eqn:Ha.
    - cbn zeta in Hin. case_bool_decide as Hrev.
      + by apply (isReviewed_status _ activeFile).
      + by repeat (apply elem_of_cons in Hin as [?|Hin]; [done|]);
          apply elem_of_nil in Hin.
    - by repeat (apply elem_of_cons in Hin as [?|Hin]; [done|]);
        apply elem_of_nil in Hin. }
  split_and!.
  - done.
  - unfold getSuggestions.
    destruct (getActiveFile h) as [activeFile|] eqn:Ha; cbn zeta.
    + case_bool_decide as Hrev.
      * intros [[_ Hin]%list_elem_of_filter|[_ Hin]%list_elem_of_filter];
          by repeat (apply elem_of_cons in Hin as [?|Hin]; [done|]);
            apply elem_of_nil in Hin.
      * intros _. split; [done|].
        intros Hst. by apply Hrev, (isReviewed_status _ activeFile).
    + intros [[_ Hin]%list_elem_of_filter|[_ Hin]%list_elem_of_filter];
        by repeat (apply elem_of_cons in Hin as [?|Hin]; [done|]);
          apply elem_of_nil in Hin.
  - intros Hq. unfold getSuggestions. rewrite Hq.
    assert (Hall : forall l : list Action,
              filter (fun a => includes (toLowerCase (ACTIONS_name a)) "") l = l).
    { intros l. induction l as [|a l IH]; [done|].
      rewrite filter_cons_True; [by rewrite IH|].
      by rewrite includes_empty. }
    rewrite Hall.
    destruct (getActiveFile h) as [activeFile|] eqn:Ha; cbn zeta.
    + case_bool_decide as Hrev.
      * split_and!.
        -- apply elem_of_cons. by left.
        -- intros _. apply elem_of_cons. right. apply elem_of_cons. by left.
        -- intros _ Hst. destruct Hst. by apply (isReviewed_status _ activeFile).
      * split_and!.
        -- do 2 (apply elem_of_cons; right). apply elem_of_cons. by left.
        -- intros Hst. destruct Hrev. by apply (isReviewed_status _ activeFile).
        -- intros _ _. split.
           ++ apply elem_of_cons. right. apply elem_of_cons. by left.
           ++ apply elem_of_cons. by left.
    + split_and!.
      * apply elem_of_cons. by left.
      * unfold getActiveFileStatus. by rewrite Ha.
      * by intros [? ?].
  - intros Hin. specialize (Hun Hin).
    destruct (getActiveFileStatus_stored h _ _ Hun)
      as (activeFile & s & i & x & Ha & Hp & Hs & Hfind & Hx).
    assert (Hfa : file_or_active h None = Some (OfTFile activeFile))
      by (unfold file_or_active; by rewrite Ha).
    rewrite onChooseSuggestion_unreview. split.
    + apply (unreviewFile_notices_found h None w (OfTFile activeFile) i x Hfa).
      cbn [like_path]. by rewrite (getSnapshotFile_path _ _ s).
    + rewrite unreviewFile_marked, Hfa. unfold getActiveFileStatus.
      rewrite Ha. f_equal.
      by apply (marked_status h to_review (OfTFile activeFile) _ s).
Qed.

End Suggestions.

(** ** Deleting the snapshot *)

Section Deleting.

Variable h : Host.

#[local] Abbreviation onDelete :=
  (bind (assign_settings (set_snapshot None)) (fun _ =>
   bind (StatusBar_update h) (fun _ => saveSettings))).





End Deleting.

(** * Worked examples for the rest of the plugin *)

(** ** The status bar and the settings panel *)

(** The command that completes the review of [a.md], run with the status bar
    up to date, leaves it up to date: it then reads "Reviewed". *)
Lemma run_entry_keeps_status_bar_witness :
  let h := vault_host (Some (md "a.md")) [md "a.md"] None in
  let w := exec (StatusBar_update h)
             (world_of (ledger [{| path := "a.md"; status := to_review |}])) in
  let e := ECommand complete_review false in
  let w' := exec (run_entry h e) w in
  (forall file oldPath, e ≠ EOp (OpRename file oldPath))
  /\ bar_agrees h (plugin_settings w) (statusBar w)
  /\ sb_text (statusBar w) = "Not reviewed"
  /\ sb_text (statusBar w') = "Reviewed"
  /\ bar_agrees h (plugin_settings w') (statusBar w').
Proof.
  cbv zeta.
  set (h := vault_host (Some (md "a.md")) [md "a.md"] None).
  set (w := exec (StatusBar_update h)
              (world_of (ledger [{| path := "a.md"; status := to_review |}]))).
  assert (He : forall file oldPath,
            ECommand complete_review false ≠ EOp (OpRename file oldPath))
    by (intros file oldPath; discriminate).
  assert (Hbar : bar_agrees h (plugin_settings w) (statusBar w))
    by (vm_compute; split_and!; reflexivity).
  split; [exact He|]. split; [exact Hbar|].
  split; [reflexivity|]. split; [reflexivity|].
  destruct (run_entry_keeps_status_bar h (ECommand complete_review false) w)
    as (_ & _ & Hkeep).
  exact (Hkeep He Hbar).
Defined.

(** The create button, clicked in a panel drawn without a snapshot, leaves a
    panel that shows the trash and the add button. *)
Lemma run_entry_keeps_panel_witness :
  let h := vault_host None [md "a.md"] None in
  let w := exec display (world_of DEFAULT_SETTINGS) in
  let e := EClick CreateSnapshotButton in
  let w' := exec (run_entry h e) w in
  (forall askForConfirmation, e ≠ EDeleteSnapshot askForConfirmation)
  /\ panel_agrees (plugin_settings w) (panel w)
  /\ panel w = [CreateSnapshotButton]
  /\ panel w' = [DeleteSnapshotButton; AddAllNewFilesButton]
  /\ panel_agrees (plugin_settings w') (panel w').
Proof.
  cbv zeta.
  set (h := vault_host None [md "a.md"] None).
  set (w := exec display (world_of DEFAULT_SETTINGS)).
  assert (He : forall askForConfirmation,
            EClick CreateSnapshotButton ≠ EDeleteSnapshot askForConfirmation)
    by (intros askForConfirmation; discriminate).
  assert (Hpanel : panel_agrees (plugin_settings w) (panel w)) by reflexivity.
  split; [exact He|]. split; [exact Hpanel|].
  split; [reflexivity|]. split; [reflexivity|].
  destruct (run_entry_keeps_panel h (EClick CreateSnapshotButton) w)
    as (_ & Hkeep).
  exact (Hkeep He Hpanel).
Defined.

(** The settings are loaded again, with a snapshot in the data file, while
    the tab shows the create button: the tab is not drawn again, and no
    longer shows the buttons that go with the ledger. *)
Example onExternalSettingsChange_leaves_panel :
  let stored := {| data_snapshot := Some (snapshot_of []);
                   data_showStatusBar := None |} in
  let h := vault_host None [md "a.md"] (Some stored) in
  let w := exec display (world_of DEFAULT_SETTINGS) in
  let w' := exec (onExternalSettingsChange h) w in
  panel_agrees (plugin_settings w) (panel w)
  /\ panel w' = [CreateSnapshotButton]
  /\ has_snapshot (plugin_settings w') = true
  /\ ~ panel_agrees (plugin_settings w') (panel w').
Proof. cbv zeta. split_and!; [reflexivity..|]. intros [=]. Qed.

(** ** Deleting the snapshot *)

(** Delete is clicked in the modal, and the modal is closed before the
    settings are saved: the snapshot is removed, and [cancelled] is
    reported. With the modal left open, [deleted] is reported. *)
Example deleteSnapshot_closed_while_saving :
  let h := vault_host None [md "a.md"] None in
  let w := world_of (ledger [{| path := "a.md"; status := to_review |}]) in
  let closed := deleteSnapshot (with_answer (modal_delete 0 true) h) true in
  let awaited := deleteSnapshot (with_answer (modal_delete 0 false) h) true in
  value_of closed w = result_cancelled
  /\ value_of awaited w = result_deleted
  /\ snapshot (plugin_settings (exec closed w)) = None
  /\ exec closed w = exec awaited w
  /\ saved (exec closed w) = [set_snapshot None (plugin_settings w)].
Proof. cbv zeta. by split_and!. Qed.

(** ** Marking *)

(** [a.md] is marked in a snapshot that also tracks [b.md]. *)
Lemma mark_then_status_witness :
  let h := vault_host (Some (md "a.md")) [md "a.md"; md "b.md"] None in
  let fs := [{| path := "a.md"; status := to_review |};
             {| path := "b.md"; status := reviewed |}] in
  let w := world_of (ledger fs) in
  let activeFile := OfTFile (md "a.md") in
  let p := like_path activeFile in
  let w1 := exec (completeReview h None false) w in
  let w2 := exec (unreviewFile h None) w in
  snapshot (plugin_settings w) = Some (snapshot_of fs)
  /\ file_or_active h None = Some activeFile
  /\ like_path activeFile ≠ ""
  /\ file_status h (plugin_settings w1) p = stored reviewed
  /\ file_status h (plugin_settings w2) p = stored to_review
  /\ forall q, q ≠ p ->
       file_status h (plugin_settings w1) q = file_status h (plugin_settings w) q
       /\ file_status h (plugin_settings w2) q = file_status h (plugin_settings w) q.
Proof.
  cbv zeta.
  split; [reflexivity|]. split; [reflexivity|]. split; [discriminate|].
  apply (mark_then_status
           (vault_host (Some (md "a.md")) [md "a.md"; md "b.md"] None) None
           (world_of (ledger [{| path := "a.md"; status := to_review |};
                              {| path := "b.md"; status := reviewed |}]))
           (snapshot_of [{| path := "a.md"; status := to_review |};
                         {| path := "b.md"; status := reviewed |}])
           (OfTFile (md "a.md")));
    [reflexivity|reflexivity|discriminate].
Defined.

(** Marks of the active file [a.md], one after the other. *)
Lemma last_mark_wins_witness :
  let h := vault_host (Some (md "a.md")) [md "a.md"] None in
  let w := world_of (ledger [{| path := "a.md"; status := reviewed |}]) in
  let review := exec (completeReview h None false) in
  let unreview := exec (unreviewFile h None) in
  (forall activeFile, file_or_active h None = Some activeFile ->
     like_path activeFile ≠ "")
  /\ plugin_settings (unreview (review w)) = plugin_settings (unreview w)
  /\ plugin_settings (review (unreview w)) = plugin_settings (review w)
  /\ plugin_settings (unreview (unreview w)) = plugin_settings (unreview w).
Proof.
  cbv zeta.
  assert (Hpath : forall activeFile,
            file_or_active (vault_host (Some (md "a.md")) [md "a.md"] None) None
              = Some activeFile ->
            like_path activeFile ≠ "").
  { intros activeFile Ha. injection Ha as <-. discriminate. }
  split; [exact Hpath|].
  exact (last_mark_wins (vault_host (Some (md "a.md")) [md "a.md"] None) None
           (world_of (ledger [{| path := "a.md"; status := reviewed |}])) Hpath).
Defined.

(** The review of [a.md] is completed by the command and taken back by the
    command that is offered then. *)
Lemma review_command_round_trip_witness :
  let h := vault_host (Some (md "a.md")) [md "a.md"] None in
  let w := world_of (ledger [{| path := "a.md"; status := to_review |}]) in
  let w1 := exec (checkCallback h complete_review false) w in
  let w2 := exec (checkCallback h unreview_file false) w1 in
  value_of (checkCallback h complete_review true) w = Some true
  /\ plugin_settings w1 = ledger [{| path := "a.md"; status := reviewed |}]
  /\ notices w1 = notices w
  /\ length <$> (files <$> snapshot (plugin_settings w1))
     = length <$> (files <$> snapshot (plugin_settings w))
  /\ value_of (checkCallback h complete_review true) w1 = Some false
  /\ value_of (checkCallback h unreview_file true) w1 = Some true
  /\ plugin_settings w2 = plugin_settings w
  /\ notices w2 = notices w.
Proof.
  cbv zeta. split; [reflexivity|]. split; [reflexivity|].
  apply (review_command_round_trip
           (vault_host (Some (md "a.md")) [md "a.md"] None)
           (world_of (ledger [{| path := "a.md"; status := to_review |}]))).
  reflexivity.
Defined.

(** ** Renaming, deleting and evicting *)

(** The reviewed [a.md] is renamed to [b.md], beside the record of [c.md]. *)
Lemma rename_then_status_witness :
  let h := vault_host None [md "b.md"; md "c.md"] None in
  let fs := [{| path := "a.md"; status := reviewed |};
             {| path := "c.md"; status := to_review |}] in
  let w := world_of (ledger fs) in
  let f := md "b.md" in
  let oldPath := "a.md" in
  let newPath := tfile_path f in
  let w1 := exec (handleFileRename h (AFile f) oldPath) w in
  snapshot (plugin_settings w) = Some (snapshot_of fs)
  /\ oldPath ≠ ""
  /\ tfile_path f ≠ ""
  /\ Exists (fun x => path x = oldPath) fs
  /\ (tfile_path f ∉ path <$> fs)
  /\ file_status h (plugin_settings w1) newPath = file_status h (plugin_settings w) oldPath
  /\ (forall q, q ≠ oldPath -> q ≠ newPath ->
      file_status h (plugin_settings w1) q = file_status h (plugin_settings w) q)
  /\ (NoDup (path <$> fs) ->
      file_status h (plugin_settings w1) oldPath = new)
  /\ (forall f_old, tfile_path f_old = oldPath ->
      plugin_settings (exec (handleFileRename h (AFile f_old) newPath) w1)
        = plugin_settings w).
Proof.
  cbv zeta.
  set (fs := [{| path := "a.md"; status := reviewed |};
              {| path := "c.md"; status := to_review |}]).
  assert (Hex : Exists (fun x => path x = "a.md") fs)
    by (apply Exists_cons_hd; reflexivity).
  assert (Hnew : tfile_path (md "b.md") ∉ path <$> fs).
  { intros Hin. cbn in Hin.
    apply elem_of_cons in Hin as [Hin|Hin]; [discriminate|].
    apply elem_of_cons in Hin as [Hin|Hin]; [discriminate|].
    by apply elem_of_nil in Hin. }
  split; [reflexivity|]. split; [discriminate|]. split; [discriminate|].
  split; [exact Hex|]. split; [exact Hnew|].
  apply (rename_then_status (vault_host None [md "b.md"; md "c.md"] None)
           (md "b.md") "a.md" (world_of (ledger fs)) (snapshot_of fs));
    [reflexivity|discriminate|discriminate|exact Hex|exact Hnew].
Defined.

(** [a.md], which is to review, is deleted. *)
Lemma delete_then_status_witness :
  let h := vault_host None [md "b.md"] None in
  let fs := [{| path := "a.md"; status := to_review |};
             {| path := "b.md"; status := to_review |}] in
  let w := world_of (ledger fs) in
  let f := md "a.md" in
  let p := tfile_path f in
  let w1 := exec (handleFileDelete h (AFile f)) w in
  snapshot (plugin_settings w) = Some (snapshot_of fs)
  /\ tfile_path f ≠ ""
  /\ Exists (fun x => path x = tfile_path f) fs
  /\ getToReviewFiles (plugin_settings w1) = [{| path := "b.md"; status := to_review |}]
  /\ file_status h (plugin_settings w1) p = stored deleted
  /\ (forall q, q ≠ p ->
      file_status h (plugin_settings w1) q = file_status h (plugin_settings w) q)
  /\ (forall r, r ∈ getToReviewFiles (plugin_settings w1) ->
      r ∈ getToReviewFiles (plugin_settings w)
      /\ (NoDup (path <$> fs) -> path r ≠ p))
  /\ plugin_settings (exec (handleFileDelete h (AFile f)) w1) = plugin_settings w1.
Proof.
  cbv zeta.
  set (fs := [{| path := "a.md"; status := to_review |};
              {| path := "b.md"; status := to_review |}]).
  assert (Hex : Exists (fun x => path x = tfile_path (md "a.md")) fs)
    by (apply Exists_cons_hd; reflexivity).
  split; [reflexivity|]. split; [discriminate|]. split; [exact Hex|].
  split; [reflexivity|].
  apply (delete_then_status (vault_host None [md "b.md"] None) (md "a.md")
           (world_of (ledger fs)) (snapshot_of fs));
    [reflexivity|discriminate|exact Hex].
Defined.

(** The record of [gone.md], a file that the vault no longer holds, is
    opened. *)
Lemma evict_then_status_witness :
  let h := vault_host None [md "a.md"] None in
  let file := {| path := "gone.md"; status := to_review |} in
  let w := world_of (ledger [file; {| path := "a.md"; status := to_review |}]) in
  let w1 := exec (focusFile h file false) w in
  vault_getFileByPath h (path file) = None
  /\ plugin_settings w1 = ledger [{| path := "a.md"; status := to_review |}]
  /\ file_status h (plugin_settings w1) (path file) = new
  /\ (forall q, q ≠ path file ->
      file_status h (plugin_settings w1) q = file_status h (plugin_settings w) q)
  /\ (forall r, r ∈ getToReviewFiles (plugin_settings w1) ->
      r ∈ getToReviewFiles (plugin_settings w) /\ path r ≠ path file).
Proof.
  cbv zeta. split; [reflexivity|]. split; [reflexivity|].
  apply (evict_then_status (vault_host None [md "a.md"] None)
           {| path := "gone.md"; status := to_review |} false
           (world_of (ledger [{| path := "gone.md"; status := to_review |};
                              {| path := "a.md"; status := to_review |}]))).
  reflexivity.
Defined.
